(** * install-snippets.py: asset resolution and CDP installation

    A shallow embedding of [scripts/install-snippets.py].  Python values
    are modelled as follows.

    - [str] is [string]; [len] is [String.length]; [int] is [Z].
    - A [pathlib.Path] is the list of its components; [p / name] appends a
      component, [p.parent] drops the last one.  File names are single
      components, as every entry of [SCRIPTS] is.
    - An exception is a constructor of [exn]; a call that may raise returns
      a [result].
    - What the program prints and what it does on the websocket is recorded
      as a trace of [event]s; the websocket library is an interface
      ([WebSocket]) whose operations thread an arbitrary world state. *)

From Stdlib Require Import String Ascii List ZArith Bool Lia Permutation.
From Stdlib Require Import DecimalString Finite.
Import ListNotations.
Open Scope list_scope.
Open Scope string_scope.

Set Implicit Arguments.

(** ** Python strings *)

Module PyStr.

(** [s.startswith(p)] *)
Fixpoint startswith (p s : string) : bool :=
  match p, s with
  | EmptyString, _ => true
  | String a p', String b s' => Ascii.eqb a b && startswith p' s'
  | String _ _, EmptyString => false
  end.

(** Scan for [str.replace] with a non-empty [old]: [skip] counts the
    characters of a match that are still to be dropped. *)
Fixpoint replace_scan (old new : string) (skip : nat) (s : string) : string :=
  match s with
  | EmptyString => EmptyString
  | String c s' =>
      match skip with
      | S k => replace_scan old new k s'
      | O =>
          if startswith old s
          then new ++ replace_scan old new (String.length old - 1) s'
          else String c (replace_scan old new 0 s')
      end
  end.

(** With an empty [old], [new] is inserted before every character and at
    the end. *)
Fixpoint intersperse (new s : string) : string :=
  match s with
  | EmptyString => new
  | String c s' => new ++ String c (intersperse new s')
  end.

(** [s.replace(old, new)]: every non-overlapping occurrence, left to
    right. *)
Definition replace (old new s : string) : string :=
  match old with
  | EmptyString => intersperse new s
  | String _ _ => replace_scan old new 0 s
  end.

(** [str(n)] for a length. *)
Definition of_nat (n : nat) : string :=
  NilZero.string_of_uint (Nat.to_uint n).

(** [str(z)] for an [int]. *)
Definition of_Z (z : Z) : string :=
  NilZero.string_of_int (Z.to_int z).

Fixpoint spaces (n : nat) : string :=
  match n with
  | O => EmptyString
  | S k => String " " (spaces k)
  end.

(** [format(s, str(width))]: left-justified, padded, never truncated. *)
Definition ljust (width : nat) (s : string) : string :=
  s ++ spaces (width - String.length s).

Definition nl : string := String (ascii_of_nat 10) EmptyString.
Definition dquote : string := String (ascii_of_nat 34) EmptyString.
Definition backslash : string := String (ascii_of_nat 92) EmptyString.

End PyStr.

(** ** Exceptions and results *)

Inductive exn : Type :=
| FileNotFoundError (msg : string)
| IsADirectoryError
| PermissionError
| UnicodeDecodeError
| JSONDecodeError
| AttributeError
| WebSocketException (msg : string)
| SystemExit (code : Z).

(** [except FileNotFoundError] catches exactly the first constructor (the
    class has no subclass among the others). *)
Definition is_FileNotFoundError (e : exn) : bool :=
  match e with
  | FileNotFoundError _ => true
  | _ => false
  end.

Inductive result (A : Type) : Type :=
| Ok (a : A)
| Raise (e : exn).
Arguments Ok {A} a.
Arguments Raise {A} e.

(** ** Paths and the file system *)

Definition path : Type := list string.

Definition parent (p : path) : path := removelast p.

Definition joinpath (p : path) (name : string) : path := (p ++ [name])%list.

Declare Scope path_scope.
Delimit Scope path_scope with path.
Infix "//" := joinpath (at level 40, left associativity) : path_scope.
Open Scope path_scope.

(** [str(p)] *)
Definition path_str (p : path) : string :=
  match p with
  | [] => "."
  | _ => String.concat "/" p
  end.

Definition path_eqb (p q : path) : bool :=
  if list_eq_dec string_dec p q then true else false.

(** The file system as the program sees it: [Path.exists] and
    [Path.read_text(encoding="utf-8")].  [Path.exists] is taken to answer:
    a file system on which it raises itself (a directory that may not be
    searched) is outside this model, and so is a [print] that raises. *)
Record filesystem : Type := {
  fs_exists : path -> bool;
  fs_read_text : path -> result string
}.

(** Concrete file systems, for examples. *)
Inductive node : Type :=
| Directory
| TextFile (content : string)
| BinaryFile.

Fixpoint lookup_node (entries : list (path * node)) (p : path) : option node :=
  match entries with
  | [] => None
  | (q, n) :: rest => if path_eqb q p then Some n else lookup_node rest p
  end.

Definition fs_of (entries : list (path * node)) : filesystem := {|
  fs_exists p :=
    match lookup_node entries p with
    | Some _ => true
    | None => false
    end;
  fs_read_text p :=
    match lookup_node entries p with
    | Some (TextFile content) => Ok content
    | Some BinaryFile => Raise UnicodeDecodeError
    | Some Directory => Raise IsADirectoryError
    | None =>
        Raise (FileNotFoundError
                 ("[Errno 2] No such file or directory: '" ++ path_str p ++ "'"))
    end
|}.

(** ** JSON values

    The objects [json.loads] builds and [json.dumps] consumes.  A [dict] is
    its list of items, looked up by key. *)

#[warnings="-register-all"]
Inductive json : Type :=
| JNull
| JBool (b : bool)
| JInt (z : Z)
| JFloat (literal : string)
| JStr (s : string)
| JArr (items : list json)
| JObj (items : list (string * json)).

Fixpoint dict_lookup (key : string) (items : list (string * json)) : option json :=
  match items with
  | [] => None
  | (k, v) :: rest => if String.eqb k key then Some v else dict_lookup key rest
  end.

(** [obj.get(key, default)]: only a [dict] has the method. *)
Definition py_get (obj : json) (key : string) (default : json) : result json :=
  match obj with
  | JObj items =>
      Ok (match dict_lookup key items with
          | Some v => v
          | None => default
          end)
  | _ => Raise AttributeError
  end.

Module Json.

Definition hex_digit (n : nat) : string :=
  String.substring n 1 "0123456789abcdef".

(** One character of [json.dumps(s)] with the default [ensure_ascii]. *)
Definition escape (c : ascii) : string :=
  let n := nat_of_ascii c in
  if Nat.eqb n 34 then PyStr.backslash ++ PyStr.dquote
  else if Nat.eqb n 92 then PyStr.backslash ++ PyStr.backslash
  else if Nat.eqb n 10 then PyStr.backslash ++ "n"
  else if Nat.eqb n 13 then PyStr.backslash ++ "r"
  else if Nat.eqb n 9 then PyStr.backslash ++ "t"
  else if Nat.eqb n 12 then PyStr.backslash ++ "f"
  else if Nat.eqb n 8 then PyStr.backslash ++ "b"
  else if Nat.ltb n 32 || Nat.ltb 126 n
       then PyStr.backslash ++ "u00" ++ hex_digit (n / 16) ++ hex_digit (n mod 16)
       else String c EmptyString.

Fixpoint escape_all (s : string) : string :=
  match s with
  | EmptyString => EmptyString
  | String c s' => escape c ++ escape_all s'
  end.

(** [json.dumps(s)] for a [str]. *)
Definition dumps_str (s : string) : string :=
  PyStr.dquote ++ escape_all s ++ PyStr.dquote.

End Json.

(** A received websocket frame stands for what [json.loads] makes of it:
    a value, text that is not JSON, or (a binary frame) bytes that are
    not text. *)
Inductive frame : Type :=
| JsonText (value : json)
| NotJson
| NotText.

Definition json_loads (f : frame) : result json :=
  match f with
  | JsonText v => Ok v
  | NotJson => Raise JSONDecodeError
  | NotText => Raise UnicodeDecodeError
  end.

(** ** Observable behaviour *)

Inductive event : Type :=
| EvPrint (line : string)                      (* print(line) *)
| EvPrintValue (prefix : string) (v : json)    (* print(f"{prefix}{v}") *)
| EvConnect (url : string)                     (* websocket.create_connection(url) *)
| EvSend (message : json)                      (* ws.send(json.dumps(message)) *)
| EvRecv                                       (* ws.recv() *)
| EvClose.                                     (* ws.close() *)

Definition trace : Type := list event.

(** The websocket library and the peer behind it: each call steps a world
    state and returns or raises.  The program holds at most one
    connection, so the handle is left implicit. *)
Class WebSocket (W : Type) : Type := {
  ws_connect : string -> W -> W * result unit;
  ws_send : json -> W -> W * result unit;
  ws_recv : W -> W * result frame;
  ws_close : W -> W * result unit
}.

(** ** Programs: world passing, a trace, and exceptions *)

Section Prog.

Context {W : Type} {WS : WebSocket W}.

Definition Prog (A : Type) : Type := W -> trace * W * result A.

Definition ret {A} (a : A) : Prog A := fun w => ([], w, Ok a).

Definition raise {A} (e : exn) : Prog A := fun w => ([], w, Raise e).

Definition bind {A B} (m : Prog A) (k : A -> Prog B) : Prog B :=
  fun w =>
    match m w with
    | (t1, w1, Ok a) =>
        match k a w1 with
        | (t2, w2, r) => ((t1 ++ t2)%list, w2, r)
        end
    | (t1, w1, Raise e) => (t1, w1, Raise e)
    end.

(** [try: body finally: cleanup] *)
Definition try_finally {A} (body : Prog A) (cleanup : Prog unit) : Prog A :=
  fun w =>
    match body w with
    | (t1, w1, r1) =>
        match cleanup w1 with
        | (t2, w2, Ok _) => ((t1 ++ t2)%list, w2, r1)
        | (t2, w2, Raise e) => ((t1 ++ t2)%list, w2, Raise e)
        end
    end.

Definition lift {A} (r : result A) : Prog A := fun w => ([], w, r).

Definition print (line : string) : Prog unit :=
  fun w => ([EvPrint line], w, Ok tt).

Definition print_value (prefix : string) (v : json) : Prog unit :=
  fun w => ([EvPrintValue prefix v], w, Ok tt).

Definition create_connection (url : string) : Prog unit :=
  fun w => let (w', r) := ws_connect url w in ([EvConnect url], w', r).

Definition send (message : json) : Prog unit :=
  fun w => let (w', r) := ws_send message w in ([EvSend message], w', r).

Definition recv : Prog frame :=
  fun w => let (w', r) := ws_recv w in ([EvRecv], w', r).

Definition close : Prog unit :=
  fun w => let (w', r) := ws_close w in ([EvClose], w', r).

End Prog.

Arguments Prog W A : clear implicits.

Declare Scope prog_scope.
Delimit Scope prog_scope with prog.
Notation "x <- m ;; k" := (bind m (fun x => k))
  (at level 61, m at next level, right associativity) : prog_scope.
Notation "m ;; k" := (bind m (fun _ => k))
  (at level 61, right associativity) : prog_scope.
Open Scope prog_scope.

Definition run_trace {W A} (o : trace * W * result A) : trace := fst (fst o).
Definition run_world {W A} (o : trace * W * result A) : W := snd (fst o).
Definition run_result {W A} (o : trace * W * result A) : result A := snd o.

(** ** The script table *)

Record descriptor : Type := {
  script_name : string;
  script_file : string;
  script_description : string
}.

Definition SCRIPTS : list descriptor := [
  {| script_name := "lms-extractor";
     script_file := "lms-extractor-complete.js";
     script_description := "Universal LMS extractor" |};
  {| script_name := "storyline";
     script_file := "storyline-console-extractor.js";
     script_description := "Articulate Storyline extractor" |};
  {| script_name := "tla-helper";
     script_file := "tla-completion-helper.js";
     script_description := "TLA/xAPI helper" |};
  {| script_name := "qa-extractor";
     script_file := "unified-qa-extractor.js";
     script_description := "Multi-format Q&A extractor" |}
].

(** An element of the [snippets] list: [{"name": ..., "content": ...}]. *)
Record snippet : Type := {
  snippet_name : string;
  snippet_content : string
}.

(** ** [read_script] *)

Definition read_script (fs : filesystem) (lib_dir : path) (filename : string)
  : result string :=
  let script_path := lib_dir // filename in
  if negb (fs_exists fs script_path) then
    (* Try minified version *)
    let min_path :=
      parent lib_dir // "dist" // PyStr.replace ".js" ".min.js" filename in
    if fs_exists fs min_path
    then fs_read_text fs min_path
    else Raise (FileNotFoundError ("Script not found: " ++ path_str script_path))
  else fs_read_text fs script_path.

(** ** [install_via_cdp] *)

Definition enable_command : json :=
  JObj [("id", JInt 1); ("method", JStr "Runtime.enable")].

(** The f-string of the loop body. *)
Definition script_text (s : snippet) : string :=
  String.concat PyStr.nl [
    "";
    "            (async () => {";
    "                // Access DevTools snippets storage";
    "                const db = await new Promise((resolve, reject) => {";
    "                    const request = indexedDB.open('devtools-frontend', 1);";
    "                    request.onerror = reject;";
    "                    request.onsuccess = () => resolve(request.result);";
    "                });";
    "";
    "                const tx = db.transaction(['snippets'], 'readwrite');";
    "                const store = tx.objectStore('snippets');";
    "";
    "                await new Promise((resolve, reject) => {";
    "                    const request = store.put({";
    "                        name: " ++ Json.dumps_str (snippet_name s) ++ ",";
    "                        content: " ++ Json.dumps_str (snippet_content s);
    "                    });";
    "                    request.onerror = reject;";
    "                    request.onsuccess = resolve;";
    "                });";
    "";
    "                return 'Installed: ' + " ++ Json.dumps_str (snippet_name s) ++ ";";
    "            })()";
    "            "
  ].

Definition evaluate_command (i : Z) (s : snippet) : json :=
  JObj [("id", JInt (i + 10));
        ("method", JStr "Runtime.evaluate");
        ("params", JObj [("expression", JStr (script_text s));
                         ("awaitPromise", JBool true)])].

(** [result.get('result', {}).get('result', {}).get('value', 'Unknown result')] *)
Definition reply_value (reply : json) : result json :=
  match py_get reply "result" (JObj []) with
  | Raise e => Raise e
  | Ok outer =>
      match py_get outer "result" (JObj []) with
      | Raise e => Raise e
      | Ok inner => py_get inner "value" (JStr "Unknown result")
      end
  end.

Section Installer.

Context {W : Type} {WS : WebSocket W}.

(** The body of [for i, snippet in enumerate(snippets)], from index [i]. *)
Fixpoint install_loop (i : Z) (snippets : list snippet) : Prog W unit :=
  match snippets with
  | [] => ret tt
  | s :: rest =>
      send (evaluate_command i s) ;;
      reply <- recv ;;
      result <- lift (json_loads reply) ;;
      value <- lift (reply_value result) ;;
      print_value "  " value ;;
      install_loop (i + 1) rest
  end.

Definition install_via_cdp (ws_url : string) (snippets : list snippet)
  : Prog W unit :=
  create_connection ws_url ;;
  try_finally
    ((* Enable Runtime domain *)
     send enable_command ;;
     _ <- recv ;;
     install_loop 0 snippets)
    close.

End Installer.

(** ** [main] *)

Inductive browser : Type := chrome | edge | brave.

Definition browser_str (b : browser) : string :=
  match b with
  | chrome => "chrome"
  | edge => "edge"
  | brave => "brave"
  end.

(** The namespace [parser.parse_args()] returns. *)
Record arguments : Type := {
  arg_browser : browser;
  arg_profile : string;
  arg_port : Z;
  arg_list : bool
}.

Definition default_arguments : arguments :=
  {| arg_browser := chrome; arg_profile := "Default";
     arg_port := 9222; arg_list := false |}.

Definition min_name (file : string) : string :=
  PyStr.replace ".js" ".min.js" file.

Section Main.

Context {W : Type} {WS : WebSocket W}.

(** [Path(__file__).parent.parent], the file system, and the module-level
    table [SCRIPTS] (a variable, so that other tables can be run). *)
Variable script_dir : path.
Variable fs : filesystem.
Variable scripts : list descriptor.

Definition lib_dir : path := script_dir // "lib".
Definition dist_dir : path := script_dir // "dist".

(** Prefer minified versions if available *)
Definition use_dist : bool :=
  fs_exists fs dist_dir
  && existsb (fun s => fs_exists fs (dist_dir // min_name (script_file s))) scripts.

Definition source_dir (use_dist : bool) : path :=
  if use_dist then dist_dir else lib_dir.

(** One iteration of the loading loop. *)
Definition load_script (use_dist : bool) (script : descriptor)
    (snippets : list snippet) : Prog W (list snippet) :=
  let filename := if use_dist then min_name (script_file script)
                  else script_file script in
  match read_script fs
          (if use_dist then source_dir use_dist else lib_dir)
          (if use_dist then filename else script_file script) with
  | Ok content =>
      print ("  Loaded: " ++ script_name script ++ " ("
             ++ PyStr.of_nat (String.length content) ++ " bytes)") ;;
      ret (snippets ++ [{| snippet_name := script_name script;
                           snippet_content := content |}])%list
  | Raise (FileNotFoundError msg) =>
      print ("  Warning: " ++ msg) ;;
      ret snippets
  | Raise e => raise e
  end.

Fixpoint load_scripts (use_dist : bool) (todo : list descriptor)
    (snippets : list snippet) : Prog W (list snippet) :=
  match todo with
  | [] => ret snippets
  | script :: rest =>
      snippets' <- load_script use_dist script snippets ;;
      load_scripts use_dist rest snippets'
  end.

Fixpoint list_scripts (todo : list descriptor) : Prog W unit :=
  match todo with
  | [] => ret tt
  | s :: rest =>
      print ("  " ++ PyStr.ljust 20 (script_name s) ++ " - "
             ++ script_description s) ;;
      list_scripts rest
  end.

Definition main (args : arguments) : Prog W unit :=
  if arg_list args then
    print "Available scripts:" ;;
    list_scripts scripts ;;
    raise (SystemExit 0)
  else
    let use_dist := use_dist in
    let source_dir := source_dir use_dist in
    print ("Loading scripts from: " ++ path_str source_dir) ;;
    (* Load scripts *)
    snippets <- load_scripts use_dist scripts [] ;;
    match snippets with
    | [] =>
        print "No scripts to install!" ;;
        raise (SystemExit 1)
    | _ :: _ =>
        print (PyStr.nl ++ "Note: This method requires browser to be running with remote debugging.") ;;
        print ("Manual alternative: Open install.html and copy scripts to DevTools Snippets." ++ PyStr.nl) ;;
        print "To enable remote debugging, start browser with:" ;;
        print ("  " ++ browser_str (arg_browser args) ++ " --remote-debugging-port="
               ++ PyStr.of_Z (arg_port args) ++ PyStr.nl) ;;
        print "Then run this script again, or use install.html for manual installation."
    end.

End Main.

(** ** A scripted peer, for concrete runs

    The world is the list of reactions still to come; every websocket call
    consumes one. *)

Inductive reaction : Type :=
| Accept                 (* the call succeeds *)
| Reply (f : frame)      (* [recv] returns this frame *)
| Fail (e : exn).        (* the call raises *)

Definition scripted_call (w : list reaction) : list reaction * result unit :=
  match w with
  | Fail e :: rest => (rest, Raise e)
  | _ :: rest => (rest, Ok tt)
  | [] => ([], Ok tt)
  end.

Definition scripted_recv (w : list reaction) : list reaction * result frame :=
  match w with
  | Reply f :: rest => (rest, Ok f)
  | Fail e :: rest => (rest, Raise e)
  | Accept :: rest => (rest, Raise (WebSocketException "Connection is already closed."))
  | [] => ([], Raise (WebSocketException "Connection is already closed."))
  end.

#[export] Instance scripted : WebSocket (list reaction) := {|
  ws_connect _ := scripted_call;
  ws_send _ := scripted_call;
  ws_recv := scripted_recv;
  ws_close := scripted_call
|}.

(** ** Resolution, described by the files it looks at *)

Section Lookup.

Variable script_dir : path.
Variable fs : filesystem.

(** The read the loading loop makes for one descriptor. *)
Definition attempt (use_dist : bool) (script : descriptor) : result string :=
  read_script fs
    (if use_dist then source_dir script_dir use_dist else lib_dir script_dir)
    (if use_dist then min_name (script_file script) else script_file script).

(** The file tried first, and the one tried when it is absent. *)
Definition candidate_path (use_dist : bool) (script : descriptor) : path :=
  if use_dist
  then dist_dir script_dir // min_name (script_file script)
  else lib_dir script_dir // script_file script.

Definition fallback_path (use_dist : bool) (script : descriptor) : path :=
  if use_dist
  then dist_dir script_dir // min_name (min_name (script_file script))
  else dist_dir script_dir // min_name (script_file script).

(** One of the two files [read_script] tries exists.  This is what the
    code looks at; the specification's "found in either location" is
    [found_in_either] below. *)
Definition resolvable (use_dist : bool) (script : descriptor) : bool :=
  fs_exists fs (candidate_path use_dist script)
  || fs_exists fs (fallback_path use_dist script).

Definition located (use_dist : bool) (script : descriptor) : path :=
  if fs_exists fs (candidate_path use_dist script)
  then candidate_path use_dist script
  else fallback_path use_dist script.

(** The text of the file found for a descriptor ([""] when it cannot be
    read). *)
Definition text_of (use_dist : bool) (script : descriptor) : string :=
  match fs_read_text fs (located use_dist script) with
  | Ok content => content
  | Raise _ => ""
  end.

Definition loaded_line (script : descriptor) (content : string) : string :=
  "  Loaded: " ++ script_name script ++ " ("
  ++ PyStr.of_nat (String.length content) ++ " bytes)".

Definition warning_line (use_dist : bool) (script : descriptor) : string :=
  "  Warning: Script not found: " ++ path_str (candidate_path use_dist script).

(** What the loop prints for a descriptor that does not abort it. *)
Definition progress_line (use_dist : bool) (script : descriptor) : event :=
  match attempt use_dist script with
  | Ok content => EvPrint (loaded_line script content)
  | Raise (FileNotFoundError msg) => EvPrint ("  Warning: " ++ msg)
  | Raise _ => EvPrint ""
  end.

(** What the loop appends for a descriptor. *)
Definition loaded_from (use_dist : bool) (script : descriptor) : list snippet :=
  match attempt use_dist script with
  | Ok content => [{| snippet_name := script_name script;
                      snippet_content := content |}]
  | Raise _ => []
  end.

(** The descriptor's read returns or raises [FileNotFoundError]. *)
Definition recoverable (use_dist : bool) (script : descriptor) : Prop :=
  match attempt use_dist script with
  | Ok _ => True
  | Raise e => is_FileNotFoundError e = true
  end.

End Lookup.

(** The loading phase of [main]: the specification's [resolve]. *)
Definition resolve {W} {WS : WebSocket W} (script_dir : path) (fs : filesystem)
    (scripts : list descriptor) : Prog W (list snippet) :=
  load_scripts script_dir fs (use_dist script_dir fs scripts) scripts [].

(** ** Reading traces *)

Definition is_print (e : event) : bool :=
  match e with
  | EvPrint _ | EvPrintValue _ _ => true
  | _ => false
  end.

Definition is_close (e : event) : bool :=
  match e with
  | EvClose => true
  | _ => false
  end.

Definition is_send (e : event) : bool :=
  match e with
  | EvSend _ => true
  | _ => false
  end.

Definition is_recv (e : event) : bool :=
  match e with
  | EvRecv => true
  | _ => false
  end.

Definition count (p : event -> bool) (t : trace) : nat :=
  List.length (filter p t).

(** The commands sent, in order. *)
Fixpoint sent (t : trace) : list json :=
  match t with
  | [] => []
  | EvSend m :: t' => m :: sent t'
  | _ :: t' => sent t'
  end.

(** The outcomes reported, in order. *)
Fixpoint reported (t : trace) : list json :=
  match t with
  | [] => []
  | EvPrintValue _ v :: t' => v :: reported t'
  | _ :: t' => reported t'
  end.

(** The ["id"] of a command. *)
Definition message_id (m : json) : option Z :=
  match m with
  | JObj items =>
      match dict_lookup "id" items with
      | Some (JInt z) => Some z
      | _ => None
      end
  | _ => None
  end.

(** Request/response discipline on a channel: a command may only be sent
    when no reply is outstanding, a reply only read when one is. *)
Inductive phase : Type := Idle | Awaiting.

Fixpoint lockstep (ph : phase) (t : trace) : bool :=
  match t with
  | [] => true
  | EvSend _ :: t' =>
      match ph with
      | Idle => lockstep Awaiting t'
      | Awaiting => false
      end
  | EvRecv :: t' =>
      match ph with
      | Awaiting => lockstep Idle t'
      | Idle => false
      end
  | _ :: t' => lockstep ph t'
  end.

(** The commands [install_via_cdp] means to send for a snippet list. *)
Fixpoint evaluate_commands (i : Z) (snippets : list snippet) : list json :=
  match snippets with
  | [] => []
  | s :: rest => evaluate_command i s :: evaluate_commands (i + 1) rest
  end.

Definition planned_commands (snippets : list snippet) : list json :=
  enable_command :: evaluate_commands 0 snippets.

(** The traces the per-snippet loop can leave, from index [i]; the flag
    tells whether the loop ran to its end. *)
Inductive loop_trace : Z -> list snippet -> bool -> trace -> Prop :=
| loop_done i :
    loop_trace i [] true []
| loop_send_raised i s rest :
    loop_trace i (s :: rest) false [EvSend (evaluate_command i s)]
| loop_reply_raised i s rest :
    loop_trace i (s :: rest) false [EvSend (evaluate_command i s); EvRecv]
| loop_step i s rest v completed t :
    loop_trace (i + 1) rest completed t ->
    loop_trace i (s :: rest) completed
      (EvSend (evaluate_command i s) :: EvRecv :: EvPrintValue "  " v :: t).

Definition is_ok {A} (r : result A) : bool :=
  match r with
  | Ok _ => true
  | Raise _ => false
  end.

(** The traces the guarded block of [install_via_cdp] can leave: the
    enable exchange, then the loop. *)
Inductive body_trace (snippets : list snippet) : bool -> trace -> Prop :=
| body_send_raised :
    body_trace snippets false [EvSend enable_command]
| body_reply_raised :
    body_trace snippets false [EvSend enable_command; EvRecv]
| body_loop completed t :
    loop_trace 0 snippets completed t ->
    body_trace snippets completed (EvSend enable_command :: EvRecv :: t).

(** ** The reply shape [reply_value] reads *)

Definition field (key : string) (obj : json) : option json :=
  match obj with
  | JObj items => dict_lookup key items
  | _ => None
  end.

(** [result.result.value], when all three levels are there. *)
Definition nested_value (reply : json) : option json :=
  match field "result" reply with
  | Some outer =>
      match field "result" outer with
      | Some inner => field "value" inner
      | None => None
      end
  | None => None
  end.

Definition is_object (v : json) : bool :=
  match v with
  | JObj _ => true
  | _ => false
  end.

(** A reply object in which [result], when present, is an object, and so
    is its own [result], when present. *)
Definition well_shaped (reply : json) : bool :=
  is_object reply
  && match field "result" reply with
     | None => true
     | Some outer =>
         is_object outer
         && match field "result" outer with
            | None => true
            | Some inner => is_object inner
            end
     end.

(** ** Concrete inputs *)

Definition repo : path := ["repo"].

(** Scenario A of the specification. *)
Definition scenario_A_scripts : list descriptor :=
  [{| script_name := "x"; script_file := "x.js"; script_description := "" |}].

Definition scenario_A_fs : filesystem :=
  fs_of [(repo // "lib", Directory);
         (repo // "lib" // "x.js", TextFile "console.log(1)")].

(** Only the primary copy of the first script is installed. *)
Definition primary_only_fs : filesystem :=
  fs_of [(repo // "lib", Directory);
         (repo // "lib" // "lms-extractor-complete.js", TextFile "void 0;")].

(** A packaged batch in which the first script only has its primary copy. *)
Definition mixed_fs : filesystem :=
  fs_of [(repo // "lib", Directory);
         (repo // "dist", Directory);
         (repo // "lib" // "lms-extractor-complete.js", TextFile "void 0;");
         (repo // "dist" // "storyline-console-extractor.min.js", TextFile "1;")].

(** The second script is not UTF-8 text. *)
Definition undecodable_fs : filesystem :=
  fs_of [(repo // "lib", Directory);
         (repo // "lib" // "lms-extractor-complete.js", TextFile "void 0;");
         (repo // "lib" // "storyline-console-extractor.js", BinaryFile);
         (repo // "lib" // "tla-completion-helper.js", TextFile "2;")].

Definition snippet_a : snippet :=
  {| snippet_name := "a"; snippet_content := "1;" |}.
Definition snippet_b : snippet :=
  {| snippet_name := "b"; snippet_content := "2;" |}.
Definition snippet_c : snippet :=
  {| snippet_name := "c"; snippet_content := "3;" |}.

Definition installed_reply (id : Z) (name : string) : json :=
  JObj [("id", JInt id);
        ("result", JObj [("result", JObj [("type", JStr "string");
                                          ("value", JStr ("Installed: " ++ name))])])].



(** Scenario D of the specification: the last reply has no result. *)
Definition scenario_D_peer : list reaction :=
  [Accept;
   Accept; Reply (JsonText (JObj [("id", JInt 1); ("result", JObj [])]));
   Accept; Reply (JsonText (installed_reply 10 "a"));
   Accept; Reply (JsonText (installed_reply 11 "b"));
   Accept; Reply (JsonText (JObj [("id", JInt 12)]));
   Accept].

(** Scenario E of the specification: the second snippet's send fails. *)
Definition scenario_E_peer : list reaction :=
  [Accept;
   Accept; Reply (JsonText (JObj [("id", JInt 1); ("result", JObj [])]));
   Accept; Reply (JsonText (installed_reply 10 "a"));
   Fail (WebSocketException "socket is already closed.");
   Accept].



(** What is reported for a reply: the nested value, or the placeholder. *)
Definition reported_outcome (reply : json) : json :=
  match nested_value reply with
  | Some v => v
  | None => JStr "Unknown result"
  end.

(** ** What [main] prints around the loading loop *)

Definition loading_header (script_dir : path) (fs : filesystem)
    (scripts : list descriptor) : event :=
  EvPrint ("Loading scripts from: "
           ++ path_str (source_dir script_dir (use_dist script_dir fs scripts))).

Definition instructions (args : arguments) : trace :=
  [EvPrint (PyStr.nl ++ "Note: This method requires browser to be running with remote debugging.");
   EvPrint ("Manual alternative: Open install.html and copy scripts to DevTools Snippets." ++ PyStr.nl);
   EvPrint "To enable remote debugging, start browser with:";
   EvPrint ("  " ++ browser_str (arg_browser args) ++ " --remote-debugging-port="
            ++ PyStr.of_Z (arg_port args) ++ PyStr.nl);
   EvPrint "Then run this script again, or use install.html for manual installation."].

(** The snippet and the line of a descriptor whose file was found. *)
Definition snippet_of (script_dir : path) (fs : filesystem) (use_dist : bool)
    (script : descriptor) : snippet :=
  {| snippet_name := script_name script;
     snippet_content := text_of script_dir fs use_dist script |}.

Definition outcome_line (script_dir : path) (fs : filesystem) (use_dist : bool)
    (script : descriptor) : event :=
  if resolvable script_dir fs use_dist script
  then EvPrint (loaded_line script (text_of script_dir fs use_dist script))
  else EvPrint (warning_line script_dir use_dist script).

(** Every file the lookup finds can be read as text. *)
Definition readable (script_dir : path) (fs : filesystem) (use_dist : bool)
    (scripts : list descriptor) : Prop :=
  forall script,
    In script scripts ->
    resolvable script_dir fs use_dist script = true ->
    exists content,
      fs_read_text fs (located script_dir fs use_dist script) = Ok content.

(** ** The host: platform, environment, processes *)

(** [str.isspace] on one character. *)
Definition is_space (c : ascii) : bool :=
  let n := nat_of_ascii c in
  (Nat.leb 9 n && Nat.leb n 13) || (Nat.leb 28 n && Nat.leb n 32)
  || Nat.eqb n 133 || Nat.eqb n 160.

(** [s.lstrip()] *)
Fixpoint lstrip (s : string) : string :=
  match s with
  | EmptyString => EmptyString
  | String c rest => if is_space c then lstrip rest else s
  end.

(** [s.rstrip()] *)
Fixpoint rstrip (s : string) : string :=
  match s with
  | EmptyString => EmptyString
  | String c rest =>
      match rstrip rest with
      | EmptyString => if is_space c then EmptyString else String c EmptyString
      | String _ _ as kept => String c kept
      end
  end.

(** [s.strip()] *)
Definition strip (s : string) : string := rstrip (lstrip s).

(** What [subprocess.run(..., capture_output=True)] returns; [stdout] is
    what [result.stdout.decode()] gives. *)
Record CompletedProcess : Type := {
  returncode : Z;
  stdout : result string
}.

Record host : Type := {
  platform_system : string;                          (* platform.system() *)
  os_path_expandvars : string -> string;             (* os.path.expandvars *)
  os_path_exists : string -> bool;                   (* os.path.exists *)
  run_which : string -> result CompletedProcess;     (* subprocess.run(["which", p], ...) *)
  path_home : path;                                  (* Path.home(), taken as known *)
  path_render : path -> string                       (* str(p), in the host's flavour *)
}.

(** [d.get(key, default)] on a dictionary literal. *)
Fixpoint table_get {V : Type} (key : string) (items : list (string * V))
    (default : V) : V :=
  match items with
  | [] => default
  | (k, v) :: rest => if String.eqb k key then v else table_get key rest default
  end.

(** [d.get(key)] on a dictionary literal: [None] when the key is absent. *)
Fixpoint table_find {V : Type} (key : string) (items : list (string * V))
  : option V :=
  match items with
  | [] => None
  | (k, v) :: rest => if String.eqb k key then Some v else table_find key rest
  end.

(** ** [get_browser_path] *)

Definition browser_paths (h : host) : list (string * list (string * list string)) :=
  [("Windows",
    [("chrome",
      [os_path_expandvars h "%ProgramFiles%\Google\Chrome\Application\chrome.exe";
       os_path_expandvars h "%ProgramFiles(x86)%\Google\Chrome\Application\chrome.exe";
       os_path_expandvars h "%LocalAppData%\Google\Chrome\Application\chrome.exe"]);
     ("edge",
      [os_path_expandvars h "%ProgramFiles(x86)%\Microsoft\Edge\Application\msedge.exe";
       os_path_expandvars h "%ProgramFiles%\Microsoft\Edge\Application\msedge.exe"]);
     ("brave",
      [os_path_expandvars h "%ProgramFiles%\BraveSoftware\Brave-Browser\Application\brave.exe";
       os_path_expandvars h "%LocalAppData%\BraveSoftware\Brave-Browser\Application\brave.exe"])]);
   ("Darwin",
    [("chrome", ["/Applications/Google Chrome.app/Contents/MacOS/Google Chrome"]);
     ("edge", ["/Applications/Microsoft Edge.app/Contents/MacOS/Microsoft Edge"]);
     ("brave", ["/Applications/Brave Browser.app/Contents/MacOS/Brave Browser"])]);
   ("Linux",
    [("chrome", ["google-chrome"; "google-chrome-stable"; "chromium"; "chromium-browser"]);
     ("edge", ["microsoft-edge"; "microsoft-edge-stable"]);
     ("brave", ["brave"; "brave-browser"])])].

(** One iteration of the search loop: [Ok (Some p)] returns [p], [Ok None]
    goes on with the next candidate. *)
Definition probe (h : host) (system : string) (candidate : string)
  : result (option string) :=
  if String.eqb system "Linux" then
    (* On Linux, check if command exists in PATH *)
    match run_which h candidate with
    | Raise e => Raise e
    | Ok completed =>
        if Z.eqb (returncode completed) 0 then
          match stdout completed with
          | Ok text => Ok (Some (strip text))
          | Raise e => Raise e
          end
        else Ok None
    end
  else if os_path_exists h candidate then Ok (Some candidate)
  else Ok None.

Definition browser_not_found (browser : string) : exn :=
  FileNotFoundError
    ("Could not find " ++ browser ++ " browser. Please specify path manually.").

Fixpoint search_browser (h : host) (system browser : string)
    (candidates : list string) : result string :=
  match candidates with
  | [] => Raise (browser_not_found browser)
  | candidate :: rest =>
      match probe h system candidate with
      | Raise e => Raise e
      | Ok (Some found) => Ok found
      | Ok None => search_browser h system browser rest
      end
  end.

Definition get_browser_path (h : host) (browser : string) : result string :=
  let system := platform_system h in
  let paths := browser_paths h in
  search_browser h system browser
    (table_get browser (table_get system paths []) []).

(** ** [get_user_data_dir] *)

(** The segments of a relative path written with ["/"]. *)
Fixpoint segments (s : string) : list string :=
  match s with
  | EmptyString => [EmptyString]
  | String c rest =>
      if Ascii.eqb c "/" then EmptyString :: segments rest
      else match segments rest with
           | first :: others => String c first :: others
           | [] => [String c EmptyString]
           end
  end.

(** [p / "a/b/c"] *)
Definition joinpaths (p : path) (relative : string) : path :=
  (p ++ filter (fun seg => negb (String.eqb seg "")) (segments relative))%list.

Definition user_data_dirs (home : path) : list (string * list (string * path)) :=
  [("Windows",
    [("chrome", joinpaths home "AppData/Local/Google/Chrome/User Data");
     ("edge", joinpaths home "AppData/Local/Microsoft/Edge/User Data");
     ("brave", joinpaths home "AppData/Local/BraveSoftware/Brave-Browser/User Data")]);
   ("Darwin",
    [("chrome", joinpaths home "Library/Application Support/Google/Chrome");
     ("edge", joinpaths home "Library/Application Support/Microsoft Edge");
     ("brave", joinpaths home "Library/Application Support/BraveSoftware/Brave-Browser")]);
   ("Linux",
    [("chrome", joinpaths home ".config/google-chrome");
     ("edge", joinpaths home ".config/microsoft-edge");
     ("brave", joinpaths home ".config/BraveSoftware/Brave-Browser")])].

Definition user_data_not_found (browser : string) : exn :=
  FileNotFoundError ("Could not find " ++ browser ++ " user data directory").

Definition get_user_data_dir (h : host) (fs : filesystem)
    (browser profile : string) : result string :=
  let system := platform_system h in
  let home := path_home h in
  let dirs := user_data_dirs home in
  let base := table_find browser (table_get system dirs []) in
  match base with
  | Some dir =>
      if fs_exists fs dir then Ok (path_render h dir)
      else Raise (user_data_not_found browser)
  | None => Raise (user_data_not_found browser)
  end.

(** A Linux host on which only [chromium] is installed. *)
Definition chromium_host : host := {|
  platform_system := "Linux";
  os_path_expandvars s := s;
  os_path_exists _ := false;
  run_which p :=
    if String.eqb p "chromium"
    then Ok {| returncode := 0;
               stdout := Ok ("/usr/bin/chromium" ++ PyStr.nl) |}
    else Ok {| returncode := 1; stdout := Ok "" |};
  path_home := [""; "home"; "user"];
  path_render := path_str
|}.

(** ** Notions used to state properties *)


(** Two file systems that agree on everything directly inside [dir]. *)
Definition agree_inside (dir : path) (fs fs' : filesystem) : Prop :=
  forall name : string,
    fs_exists fs (dir // name) = fs_exists fs' (dir // name)
    /\ fs_read_text fs (dir // name) = fs_read_text fs' (dir // name).

(** [old] matches nowhere in [s ++ suffix] at a position inside [s]. *)
Fixpoint unmatched (old s suffix : string) : bool :=
  match s with
  | EmptyString => true
  | String c rest =>
      negb (PyStr.startswith old (s ++ suffix)) && unmatched old rest suffix
  end.

(** A double-quoted string literal on one line: after the opening quote,
    a backslash takes the next character with it, and the first other
    quote is the last character. *)
Fixpoint literal_body (escaped : bool) (s : string) : bool :=
  match s with
  | EmptyString => false
  | String c rest =>
      if escaped then literal_body false rest
      else if Ascii.eqb c (ascii_of_nat 92) then literal_body true rest
      else if Ascii.eqb c (ascii_of_nat 34)
           then match rest with EmptyString => true | String _ _ => false end
           else literal_body false rest
  end.

Definition is_literal (s : string) : bool :=
  match s with
  | EmptyString => false
  | String c rest => Ascii.eqb c (ascii_of_nat 34) && literal_body false rest
  end.

(** Every character is printable ASCII. *)
Fixpoint printable (s : string) : bool :=
  match s with
  | EmptyString => true
  | String c rest =>
      Nat.leb 32 (nat_of_ascii c) && Nat.leb (nat_of_ascii c) 126
      && printable rest
  end.

Definition is_report (e : event) : bool :=
  match e with
  | EvPrintValue _ _ => true
  | _ => false
  end.

Definition starts_with_space (s : string) : bool :=
  match s with
  | EmptyString => false
  | String c _ => is_space c
  end.

Fixpoint ends_with_space (s : string) : bool :=
  match s with
  | EmptyString => false
  | String c EmptyString => is_space c
  | String _ rest => ends_with_space rest
  end.

(** The enable reply is not JSON; the evaluation reply is fine. *)
Definition garbled_enable_peer : list reaction :=
  [Accept;
   Accept; Reply NotJson;
   Accept; Reply (JsonText (installed_reply 10 "a"));
   Accept].

(** The connection is refused. *)
Definition refusing_peer : list reaction :=
  [Fail (WebSocketException "Connection refused")].

(** Everything works until the close, which raises. *)
Definition failing_close_peer : list reaction :=
  [Accept;
   Accept; Reply (JsonText (JObj [("id", JInt 1); ("result", JObj [])]));
   Accept; Reply (JsonText (installed_reply 10 "a"));
   Fail (WebSocketException "close failed")].

(** Nothing is installed anywhere. *)
Definition empty_fs : filesystem := fs_of [].




(** The line [--list] prints for a script. *)
Definition listing_line (script : descriptor) : event :=
  EvPrint ("  " ++ PyStr.ljust 20 (script_name script) ++ " - "
           ++ script_description script).

(** [mixed_fs] with other text in the primary copy. *)
Definition mixed_fs_edited : filesystem :=
  fs_of [(repo // "lib", Directory);
         (repo // "dist", Directory);
         (repo // "lib" // "lms-extractor-complete.js", TextFile "edited;");
         (repo // "dist" // "storyline-console-extractor.min.js", TextFile "1;")].

(** The candidates [get_browser_path] goes through. *)
Definition browser_candidates (h : host) (browser : string) : list string :=
  table_get browser (table_get (platform_system h) (browser_paths h) []) [].

(** [chromium_host], where every path is said to exist. *)
Definition chromium_host_all_exist : host := {|
  platform_system := platform_system chromium_host;
  os_path_expandvars := os_path_expandvars chromium_host;
  os_path_exists _ := true;
  run_which := run_which chromium_host;
  path_home := path_home chromium_host;
  path_render := path_render chromium_host
|}.

(** A macOS host with Chrome in its usual place. *)
Definition mac_host : host := {|
  platform_system := "Darwin";
  os_path_expandvars s := s;
  os_path_exists p :=
    String.eqb p "/Applications/Google Chrome.app/Contents/MacOS/Google Chrome";
  run_which _ := Raise (FileNotFoundError "[Errno 2] No such file or directory: 'which'");
  path_home := [""; "Users"; "user"];
  path_render := path_str
|}.

(** The home directory of [chromium_host], with the Chrome profile
    directory. *)
Definition home_fs : filesystem :=
  fs_of [([""; "home"; "user"], Directory);
         ([""; "home"; "user"; ".config"], Directory);
         ([""; "home"; "user"; ".config"; "google-chrome"], Directory)].

(** ** Resolution, described by the specification's words *)

(** The descriptor's file is found in the primary location, or its
    packaged-suffix file in the packaged location. *)
Definition found_in_either (script_dir : path) (fs : filesystem)
    (script : descriptor) : bool :=
  fs_exists fs (lib_dir script_dir // script_file script)
  || fs_exists fs (dist_dir script_dir // min_name (script_file script)).

(** Every file found for a descriptor of the batch can be read as text. *)
Definition found_files_readable (script_dir : path) (fs : filesystem)
    (scripts : list descriptor) : Prop :=
  forall script,
    In script scripts ->
    found_in_either script_dir fs script = true ->
    exists content,
      fs_read_text fs
        (located script_dir fs (use_dist script_dir fs scripts) script)
      = Ok content.

(** In a batch judged packaged, the packaged copies decide: a descriptor
    with a primary copy has its packaged copy too, and no doubly suffixed
    file stands without the packaged one. *)
Definition packaged_copies_decide (script_dir : path) (fs : filesystem)
    (scripts : list descriptor) : Prop :=
  use_dist script_dir fs scripts = true ->
  forall script,
    In script scripts ->
    (fs_exists fs (lib_dir script_dir // script_file script) = true ->
     fs_exists fs (dist_dir script_dir // min_name (script_file script)) = true)
    /\ (fs_exists fs
          (dist_dir script_dir // min_name (min_name (script_file script)))
        = true ->
        fs_exists fs (dist_dir script_dir // min_name (script_file script))
        = true).

(** What the loop prints for a descriptor, by whether it is found. *)
Definition found_line (script_dir : path) (fs : filesystem) (use_dist : bool)
    (script : descriptor) : event :=
  if found_in_either script_dir fs script
  then EvPrint (loaded_line script (text_of script_dir fs use_dist script))
  else EvPrint (warning_line script_dir use_dist script).

(** ** Plain file names *)

Definition is_separator (c : ascii) : bool :=
  let n := nat_of_ascii c in
  Nat.eqb n 47 || Nat.eqb n 92 || Nat.eqb n 58 || Nat.eqb n 0.

Fixpoint has_separator (s : string) : bool :=
  match s with
  | EmptyString => false
  | String c rest => is_separator c || has_separator rest
  end.

(** A name that [p / name] appends as one component: not empty, not
    ["."] or [".."], and without a slash, a backslash, a colon or a NUL. *)
Definition plain_name (s : string) : bool :=
  negb (String.eqb s "") && negb (String.eqb s ".")
  && negb (String.eqb s "..") && negb (has_separator s).

(** The outcome is a [FileNotFoundError]. *)
Definition raises_file_not_found {A : Type} (r : result A) : bool :=
  match r with
  | Ok _ => false
  | Raise e => is_FileNotFoundError e
  end.

(** The third script exists but reading it says it is gone (it was
    removed in between). *)
Definition vanishing_fs : filesystem := {|
  fs_exists p :=
    path_eqb p (repo // "lib" // "lms-extractor-complete.js")
    || path_eqb p (repo // "lib" // "tla-completion-helper.js");
  fs_read_text p :=
    if path_eqb p (repo // "lib" // "lms-extractor-complete.js")
    then Ok "void 0;"
    else Raise (FileNotFoundError
                  ("[Errno 2] No such file or directory: '" ++ path_str p ++ "'"))
|}.

(** * Properties *)

(** ** Paths and lookups *)

Lemma parent_joinpath (p : path) (name : string) : parent (p // name) = p.
Proof. unfold parent, joinpath. apply removelast_last. Qed.

Section LookupFacts.

Variable script_dir : path.
Variable fs : filesystem.

Lemma attempt_paths (flag : bool) (script : descriptor) :
  attempt script_dir fs flag script
  = if resolvable script_dir fs flag script
    then fs_read_text fs (located script_dir fs flag script)
    else Raise (FileNotFoundError
                  ("Script not found: "
                   ++ path_str (candidate_path script_dir flag script))).
Proof.
  unfold attempt, read_script, resolvable, located, candidate_path,
    fallback_path, source_dir, lib_dir, dist_dir.
  destruct flag; rewrite !parent_joinpath; cbn [negb];
    match goal with
    | |- context [fs_exists fs ?p] =>
        destruct (fs_exists fs p) eqn:Hfirst; cbn [negb orb]; try reflexivity
    end;
    match goal with
    | |- context [fs_exists fs ?p] =>
        destruct (fs_exists fs p); reflexivity
    end.
Qed.

Lemma attempt_unresolvable (flag : bool) (script : descriptor) :
  resolvable script_dir fs flag script = false ->
  progress_line script_dir fs flag script
  = EvPrint (warning_line script_dir flag script)
  /\ loaded_from script_dir fs flag script = [].
Proof.
  intros Hres. unfold progress_line, loaded_from, warning_line.
  rewrite attempt_paths, Hres. split; reflexivity.
Qed.

Lemma attempt_resolvable (flag : bool) (script : descriptor) (content : string) :
  resolvable script_dir fs flag script = true ->
  fs_read_text fs (located script_dir fs flag script) = Ok content ->
  attempt script_dir fs flag script = Ok content
  /\ text_of script_dir fs flag script = content.
Proof.
  intros Hres Hread. unfold text_of.
  rewrite attempt_paths, Hres, Hread. split; reflexivity.
Qed.

End LookupFacts.

(** ** Laws of the program monad, run on a world *)

Section ProgFacts.

Context {W : Type} {WS : WebSocket W}.




End ProgFacts.

(** ** The loading loop *)

Section LoadingFacts.

Context {W : Type} {WS : WebSocket W}.
Variable script_dir : path.
Variable fs : filesystem.

Lemma load_script_run (flag : bool) (script : descriptor)
    (snippets : list snippet) (w : W) :
  load_script script_dir fs flag script snippets w
  = match attempt script_dir fs flag script with
    | Ok content =>
        ([EvPrint (loaded_line script content)], w,
         Ok (snippets ++ [{| snippet_name := script_name script;
                             snippet_content := content |}])%list)
    | Raise (FileNotFoundError msg) =>
        ([EvPrint ("  Warning: " ++ msg)], w, Ok snippets)
    | Raise e => ([], w, Raise e)
    end.
Proof.
  unfold load_script, attempt.
  destruct flag; cbv zeta;
    (destruct (read_script fs _ _) as [content | e];
     [reflexivity | destruct e; reflexivity]).
Qed.

Lemma load_script_recoverable (flag : bool) (script : descriptor)
    (snippets : list snippet) (w : W) :
  recoverable script_dir fs flag script ->
  load_script script_dir fs flag script snippets w
  = ([progress_line script_dir fs flag script], w,
     Ok (snippets ++ loaded_from script_dir fs flag script)%list).
Proof.
  intros Hrec. rewrite load_script_run.
  unfold recoverable in Hrec. unfold progress_line, loaded_from.
  destruct (attempt script_dir fs flag script) as [content | e].
  - reflexivity.
  - destruct e; try discriminate Hrec. now rewrite app_nil_r.
Qed.

Lemma load_script_fatal (flag : bool) (script : descriptor)
    (snippets : list snippet) (w : W) (e : exn) :
  attempt script_dir fs flag script = Raise e ->
  is_FileNotFoundError e = false ->
  load_script script_dir fs flag script snippets w = ([], w, Raise e).
Proof.
  intros Hatt Hfatal. rewrite load_script_run, Hatt.
  destruct e; try reflexivity. discriminate Hfatal.
Qed.

(** A batch without a fatal read: one line per descriptor, the snippets
    of those that were found, in order. *)
Lemma load_scripts_recoverable (flag : bool) (todo : list descriptor) :
  Forall (recoverable script_dir fs flag) todo ->
  forall (snippets : list snippet) (w : W),
    load_scripts script_dir fs flag todo snippets w
    = (map (progress_line script_dir fs flag) todo, w,
       Ok (snippets ++ flat_map (loaded_from script_dir fs flag) todo)%list).
Proof.
  induction 1 as [| script rest Hscript Hrest IH]; intros snippets w.
  - cbn. now rewrite app_nil_r.
  - cbn [load_scripts map flat_map]. unfold bind.
    rewrite load_script_recoverable by exact Hscript. rewrite IH.
    now rewrite <- app_assoc.
Qed.

(** A fatal read stops the loop where it happens. *)
Lemma load_scripts_fatal (flag : bool) (pre post : list descriptor)
    (script : descriptor) (e : exn) :
  Forall (recoverable script_dir fs flag) pre ->
  attempt script_dir fs flag script = Raise e ->
  is_FileNotFoundError e = false ->
  forall (snippets : list snippet) (w : W),
    load_scripts script_dir fs flag (pre ++ script :: post) snippets w
    = (map (progress_line script_dir fs flag) pre, w, Raise e).
Proof.
  intros Hpre Hatt Hfatal.
  induction Hpre as [| d rest Hd Hrest IH]; intros snippets w.
  - cbn [app load_scripts map]. unfold bind.
    erewrite load_script_fatal; [reflexivity | eassumption | assumption].
  - cbn [app load_scripts map]. unfold bind.
    rewrite load_script_recoverable by exact Hd. now rewrite IH.
Qed.


End LoadingFacts.

(** ** [main] around the loading loop *)

Section MainFacts.

Context {W : Type} {WS : WebSocket W}.
Variable script_dir : path.
Variable fs : filesystem.
Variable scripts : list descriptor.

Lemma main_run (args : arguments) (w : W) :
  arg_list args = false ->
  main script_dir fs scripts args w
  = match resolve script_dir fs scripts w with
    | (t, w', Raise e) =>
        (loading_header script_dir fs scripts :: t, w', Raise e)
    | (t, w', Ok []) =>
        (loading_header script_dir fs scripts
           :: t ++ [EvPrint "No scripts to install!"],
         w', Raise (SystemExit 1))
    | (t, w', Ok (_ :: _)) =>
        (loading_header script_dir fs scripts :: t ++ instructions args,
         w', Ok tt)
    end%list.
Proof.
  intros Hlist. unfold main, resolve, loading_header. rewrite Hlist.
  cbv zeta. unfold bind at 1. cbn [print app].
  unfold bind at 1.
  destruct (load_scripts script_dir fs (use_dist script_dir fs scripts)
              scripts [] w) as [[t w'] [snippets | e]]; [| reflexivity].
  destruct snippets as [| s rest]; reflexivity.
Qed.

(** What the loop does with a descriptor whose file, when found, is
    readable is told by [resolvable]. *)
Lemma descriptor_outcome (flag : bool) (script : descriptor) :
  (resolvable script_dir fs flag script = true ->
   exists content,
     fs_read_text fs (located script_dir fs flag script) = Ok content) ->
  recoverable script_dir fs flag script
  /\ progress_line script_dir fs flag script
     = outcome_line script_dir fs flag script
  /\ loaded_from script_dir fs flag script
     = if resolvable script_dir fs flag script
       then [snippet_of script_dir fs flag script]
       else [].
Proof.
  intros Hread.
  unfold recoverable, progress_line, loaded_from, outcome_line, snippet_of.
  destruct (resolvable script_dir fs flag script) eqn:Hres.
  - destruct (Hread eq_refl) as [content Hcontent].
    destruct (attempt_resolvable _ _ _ _ Hres Hcontent) as [Hatt Htext].
    rewrite Hatt, Htext. repeat split.
  - rewrite attempt_paths, Hres. repeat split.
Qed.

Lemma readable_recoverable (flag : bool) :
  readable script_dir fs flag scripts ->
  Forall (recoverable script_dir fs flag) scripts
  /\ map (progress_line script_dir fs flag) scripts
     = map (outcome_line script_dir fs flag) scripts
  /\ flat_map (loaded_from script_dir fs flag) scripts
     = map (snippet_of script_dir fs flag)
         (filter (resolvable script_dir fs flag) scripts).
Proof.
  unfold readable. intros Hread.
  induction scripts as [| script rest IH].
  - repeat split. constructor.
  - destruct IH as (Hrec & Hlines & Hsnips).
    { intros d Hd. apply Hread. now right. }
    destruct (descriptor_outcome flag script) as (Hrec1 & Hline1 & Hsnip1).
    { apply Hread. now left. }
    cbn [map flat_map filter].
    rewrite Hline1, Hlines, Hsnip1, Hsnips.
    repeat split.
    + now constructor.
    + now destruct (resolvable script_dir fs flag script).
Qed.

End MainFacts.

(** ** Resolution returns the descriptors that are found *)

(** Where the packaged copies decide, what the code probes and what the
    specification calls found are the same. *)
Lemma resolvable_found_in_either (script_dir : path) (fs : filesystem)
    (scripts : list descriptor) (script : descriptor) :
  packaged_copies_decide script_dir fs scripts ->
  In script scripts ->
  resolvable script_dir fs (use_dist script_dir fs scripts) script
  = found_in_either script_dir fs script.
Proof.
  intros Hdecide Hin. unfold packaged_copies_decide in Hdecide.
  unfold resolvable, found_in_either.
  destruct (use_dist script_dir fs scripts) eqn:Hflag;
    cbn [candidate_path fallback_path]; [| reflexivity].
  destruct (Hdecide eq_refl script Hin) as [Hprimary Hdouble].
  destruct (fs_exists fs (dist_dir script_dir // min_name (script_file script)))
    eqn:Hpackaged.
  - now rewrite orb_true_r.
  - cbn [orb]. rewrite orb_false_r.
    destruct (fs_exists fs (lib_dir script_dir // script_file script));
      [now discriminate (Hprimary eq_refl) |].
    destruct (fs_exists fs (dist_dir script_dir
                            // min_name (min_name (script_file script))));
      [now discriminate (Hdouble eq_refl) | reflexivity].
Qed.

(** C7, as the code has it.  When at least one descriptor's file is found
    (in the primary location, or its packaged-suffix file in the packaged
    location), every file found is readable text, and, in a batch judged
    packaged, the packaged copies decide, resolution returns exactly the
    snippets of the descriptors found, in input order, with none for a
    descriptor that is not found; each of those only leaves a warning
    line, the loop runs to its end, and [main] goes on past the
    empty-batch stop. *)
Theorem resolve_returns_found_subset
    {W : Type} {WS : WebSocket W} (script_dir : path) (fs : filesystem)
    (scripts : list descriptor) (args : arguments) (w : W) :
  (exists script,
      In script scripts /\ found_in_either script_dir fs script = true) ->
  found_files_readable script_dir fs scripts ->
  packaged_copies_decide script_dir fs scripts ->
  arg_list args = false ->
  resolve script_dir fs scripts w
  = (map (found_line script_dir fs (use_dist script_dir fs scripts)) scripts,
     w,
     Ok (map (snippet_of script_dir fs (use_dist script_dir fs scripts))
           (filter (found_in_either script_dir fs) scripts)))
  /\ filter (found_in_either script_dir fs) scripts <> []
  /\ run_result (main script_dir fs scripts args w) = Ok tt.
Proof.
  intros (script & Hin & Hfound) Hread Hdecide Hlist.
  assert (Hsame : forall d,
             In d scripts ->
             resolvable script_dir fs (use_dist script_dir fs scripts) d
             = found_in_either script_dir fs d).
  { intros d Hd. now apply resolvable_found_in_either. }
  assert (Hreadable : readable script_dir fs (use_dist script_dir fs scripts)
                        scripts).
  { intros d Hd Hres. apply Hread; [exact Hd |]. now rewrite <- Hsame. }
  destruct (readable_recoverable Hreadable) as (Hrec & Hlines & Hsnips).
  assert (Hfilter : filter (resolvable script_dir fs
                              (use_dist script_dir fs scripts)) scripts
                    = filter (found_in_either script_dir fs) scripts).
  { apply filter_ext_in. exact Hsame. }
  assert (Hout : map (outcome_line script_dir fs
                        (use_dist script_dir fs scripts)) scripts
                 = map (found_line script_dir fs
                          (use_dist script_dir fs scripts)) scripts).
  { apply map_ext_in. intros d Hd. unfold outcome_line, found_line.
    now rewrite (Hsame d Hd). }
  assert (Hrun : resolve script_dir fs scripts w
                 = (map (found_line script_dir fs
                           (use_dist script_dir fs scripts)) scripts,
                    w,
                    Ok (map (snippet_of script_dir fs
                               (use_dist script_dir fs scripts))
                          (filter (found_in_either script_dir fs) scripts)))).
  { unfold resolve. rewrite load_scripts_recoverable by exact Hrec.
    now rewrite Hlines, Hsnips, Hfilter, Hout. }
  assert (Hne : filter (found_in_either script_dir fs) scripts <> []).
  { intros Hnil.
    assert (Hmem : In script (filter (found_in_either script_dir fs) scripts))
      by (apply filter_In; split; assumption).
    rewrite Hnil in Hmem. exact Hmem. }
  split; [exact Hrun |]. split; [exact Hne |].
  rewrite main_run by exact Hlist. rewrite Hrun.
  destruct (filter (found_in_either script_dir fs) scripts) as [| d rest];
    [congruence | reflexivity].
Qed.

Lemma resolve_returns_found_subset_witness :
  resolve repo primary_only_fs SCRIPTS ([] : list reaction)
  = ([EvPrint "  Loaded: lms-extractor (7 bytes)";
      EvPrint "  Warning: Script not found: repo/lib/storyline-console-extractor.js";
      EvPrint "  Warning: Script not found: repo/lib/tla-completion-helper.js";
      EvPrint "  Warning: Script not found: repo/lib/unified-qa-extractor.js"],
     [],
     Ok [{| snippet_name := "lms-extractor"; snippet_content := "void 0;" |}]).
Proof.
  destruct (@resolve_returns_found_subset _ scripted repo primary_only_fs
              SCRIPTS default_arguments [])
    as (Hrun & _ & _).
  - exists {| script_name := "lms-extractor";
              script_file := "lms-extractor-complete.js";
              script_description := "Universal LMS extractor" |}.
    split; [cbn; tauto | reflexivity].
  - intros script Hin Hfound. cbn in Hin.
    destruct Hin as [<- | [<- | [<- | [<- | []]]]];
      first [ discriminate Hfound | (exists "void 0;"; reflexivity) ].
  - intros Hflag. discriminate Hflag.
  - reflexivity.
  - rewrite Hrun. reflexivity.
Defined.

(** C7, as stated, fails: with a file found for every one of the first
    three descriptors, one of them not being text, resolution returns
    nothing at all; the read raises and the batch is aborted. *)
Lemma found_but_undecodable_aborts :
  map (found_in_either repo undecodable_fs) SCRIPTS = [true; true; true; false]
  /\ resolve repo undecodable_fs SCRIPTS ([] : list reaction)
     = ([EvPrint "  Loaded: lms-extractor (7 bytes)"], [],
        Raise UnicodeDecodeError).
Proof.
  split; vm_compute; reflexivity.
Qed.

(** ** Only a missing file is a recoverable miss *)

(** C10.  When the read of some descriptor raises anything other than
    [FileNotFoundError] (the descriptors before it having been loaded or
    skipped), the exception leaves the loading loop and [main]: the trace
    ends with the lines of the earlier descriptors, so nothing is printed
    for the remaining descriptors and the empty-batch check is not
    reached. *)
Theorem fatal_read_aborts_run
    {W : Type} {WS : WebSocket W} (script_dir : path) (fs : filesystem)
    (pre post : list descriptor) (script : descriptor) (e : exn)
    (args : arguments) (w : W) :
  arg_list args = false ->
  Forall (recoverable script_dir fs
            (use_dist script_dir fs (pre ++ script :: post))) pre ->
  attempt script_dir fs (use_dist script_dir fs (pre ++ script :: post)) script
  = Raise e ->
  is_FileNotFoundError e = false ->
  main script_dir fs (pre ++ script :: post) args w
  = (loading_header script_dir fs (pre ++ script :: post)
       :: map (progress_line script_dir fs
                 (use_dist script_dir fs (pre ++ script :: post))) pre,
     w, Raise e).
Proof.
  intros Hlist Hpre Hatt Hfatal.
  rewrite main_run by exact Hlist. unfold resolve.
  erewrite load_scripts_fatal; [reflexivity | exact Hpre | exact Hatt | exact Hfatal].
Qed.

Lemma fatal_read_aborts_run_witness :
  main repo undecodable_fs SCRIPTS default_arguments ([] : list reaction)
  = ([EvPrint "Loading scripts from: repo/lib";
      EvPrint "  Loaded: lms-extractor (7 bytes)"],
     [], Raise UnicodeDecodeError).
Proof.
  apply (@fatal_read_aborts_run _ scripted repo undecodable_fs
           [{| script_name := "lms-extractor";
               script_file := "lms-extractor-complete.js";
               script_description := "Universal LMS extractor" |}]
           [{| script_name := "tla-helper";
               script_file := "tla-completion-helper.js";
               script_description := "TLA/xAPI helper" |};
            {| script_name := "qa-extractor";
               script_file := "unified-qa-extractor.js";
               script_description := "Multi-format Q&A extractor" |}]
           {| script_name := "storyline";
              script_file := "storyline-console-extractor.js";
              script_description := "Articulate Storyline extractor" |}
           UnicodeDecodeError default_arguments []).
  - reflexivity.
  - constructor; [vm_compute; exact I | constructor].
  - vm_compute; reflexivity.
  - reflexivity.
Defined.

(** ** Packaged mode is chosen for the batch *)





(** ** Scenario A *)

(** C9, as the code has it.  On Scenario A the resolver returns the one
    snippet named ["x"] with content ["console.log(1)"], and the length it
    reports for that content is 14. *)
Theorem scenario_A_resolves_with_length_14
    {W : Type} {WS : WebSocket W} (w : W) :
  resolve repo scenario_A_fs scenario_A_scripts w
  = ([EvPrint "  Loaded: x (14 bytes)"], w,
     Ok [{| snippet_name := "x"; snippet_content := "console.log(1)" |}])
  /\ String.length "console.log(1)" = 14.
Proof.
  split; reflexivity.
Qed.

(** C9, as stated, fails: the length reported on Scenario A is not 15. *)
Lemma scenario_A_length_is_not_15 :
  ~ (run_trace (resolve repo scenario_A_fs scenario_A_scripts
                  ([] : list reaction))
     = [EvPrint "  Loaded: x (15 bytes)"]
     \/ map (fun s => String.length (snippet_content s))
          (match run_result (resolve repo scenario_A_fs scenario_A_scripts
                               ([] : list reaction)) with
           | Ok snippets => snippets
           | Raise _ => []
           end)
        = [15]).
Proof.
  vm_compute. intros [H | H]; discriminate H.
Qed.

(** ** The fallback lookup *)

(** In a batch that was not judged packaged, a descriptor whose primary
    file is absent is read from the packaged directory under its
    packaged-suffix name. *)
Lemma primary_miss_reads_packaged (script_dir : path) (fs : filesystem)
    (script : descriptor) :
  fs_exists fs (lib_dir script_dir // script_file script) = false ->
  fs_exists fs (dist_dir script_dir // min_name (script_file script)) = true ->
  attempt script_dir fs false script
  = fs_read_text fs (dist_dir script_dir // min_name (script_file script)).
Proof.
  intros Hprimary Hpackaged.
  rewrite attempt_paths. unfold resolvable, located, candidate_path, fallback_path.
  now rewrite Hprimary, Hpackaged.
Qed.

(** In a packaged batch both files tried lie in the packaged directory:
    the second is the first with the suffix substituted once more.  The
    primary directory is never looked at. *)
Lemma packaged_miss_stays_packaged (script_dir : path) (fs : filesystem)
    (script : descriptor) :
  fs_exists fs (dist_dir script_dir // min_name (script_file script)) = false ->
  fs_exists fs (dist_dir script_dir // min_name (min_name (script_file script)))
  = false ->
  attempt script_dir fs true script
  = Raise (FileNotFoundError
             ("Script not found: "
              ++ path_str (dist_dir script_dir // min_name (script_file script)))).
Proof.
  intros Hfirst Hsecond.
  rewrite attempt_paths. unfold resolvable, candidate_path, fallback_path.
  now rewrite Hfirst, Hsecond.
Qed.

(** C2, at a packaged batch whose first script only has its primary copy:
    the copy in the primary directory exists, yet the two files tried are
    the packaged one and a doubly suffixed one in the same directory, the
    descriptor is reported as not found, and only the second script is
    returned. *)
Theorem packaged_batch_ignores_primary_copy :
  use_dist repo mixed_fs SCRIPTS = true
  /\ fs_exists mixed_fs (lib_dir repo // "lms-extractor-complete.js") = true
  /\ map (candidate_path repo true) (firstn 1 SCRIPTS)
     = [["repo"; "dist"; "lms-extractor-complete.min.js"]]
  /\ map (fallback_path repo true) (firstn 1 SCRIPTS)
     = [["repo"; "dist"; "lms-extractor-complete.min.min.js"]]
  /\ map (attempt repo mixed_fs true) (firstn 1 SCRIPTS)
     = [Raise (FileNotFoundError
                 "Script not found: repo/dist/lms-extractor-complete.min.js")]
  /\ resolve repo mixed_fs SCRIPTS ([] : list reaction)
     = ([EvPrint "  Warning: Script not found: repo/dist/lms-extractor-complete.min.js";
         EvPrint "  Loaded: storyline (2 bytes)";
         EvPrint "  Warning: Script not found: repo/dist/tla-completion-helper.min.js";
         EvPrint "  Warning: Script not found: repo/dist/unified-qa-extractor.min.js"],
        [],
        Ok [{| snippet_name := "storyline"; snippet_content := "1;" |}]).
Proof.
  repeat split; vm_compute; reflexivity.
Qed.

(** ** [main] never reaches the installer *)

Section MainTrace.

Context {W : Type} {WS : WebSocket W}.
Variable script_dir : path.
Variable fs : filesystem.

Lemma load_scripts_only_prints (flag : bool) (todo : list descriptor) :
  forall (snippets : list snippet) (w : W),
    run_world (load_scripts script_dir fs flag todo snippets w) = w
    /\ forallb is_print
         (run_trace (load_scripts script_dir fs flag todo snippets w))
       = true.
Proof.
  induction todo as [| script rest IH]; intros snippets w.
  - split; reflexivity.
  - cbn [load_scripts]. unfold bind. rewrite load_script_run.
    destruct (attempt script_dir fs flag script) as [content | e].
    + specialize (IH (snippets ++ [{| snippet_name := script_name script;
                                      snippet_content := content |}])%list w).
      destruct (load_scripts script_dir fs flag rest _ w) as [[t w'] r].
      exact IH.
    + destruct e; try (split; reflexivity).
      specialize (IH snippets w).
      destruct (load_scripts script_dir fs flag rest snippets w)
        as [[t w'] r].
      exact IH.
Qed.

Lemma list_scripts_only_prints (todo : list descriptor) (w : W) :
  run_world (list_scripts todo w) = w
  /\ forallb is_print (run_trace (list_scripts todo w)) = true.
Proof.
  induction todo as [| script rest IH].
  - split; reflexivity.
  - cbn [list_scripts]. unfold bind. cbn [print].
    destruct (list_scripts rest w) as [[t w'] r]. exact IH.
Qed.

(** Whatever the files and the arguments, [main] only prints: it makes
    no websocket call and leaves the world as it found it. *)
Lemma main_only_prints (scripts : list descriptor) (args : arguments) (w : W) :
  run_world (main script_dir fs scripts args w) = w
  /\ forallb is_print (run_trace (main script_dir fs scripts args w)) = true.
Proof.
  destruct (arg_list args) eqn:Hlist.
  - unfold main. rewrite Hlist. unfold bind. cbn [print].
    destruct (list_scripts_only_prints scripts w) as [Hw Ht].
    destruct (list_scripts scripts w) as [[t w'] [[] | e]];
      cbn in *; (split; [assumption |]);
      rewrite ?forallb_app, Ht; reflexivity.
  - rewrite main_run by exact Hlist. unfold resolve.
    destruct (load_scripts_only_prints (use_dist script_dir fs scripts)
                scripts [] w) as [Hw Ht].
    destruct (load_scripts script_dir fs _ scripts [] w)
      as [[t w'] [[| s rest] | e]];
      cbn in *; (split; [assumption |]);
      rewrite ?forallb_app, Ht; reflexivity.
Qed.

End MainTrace.

(** C1, at a run that loads one snippet: [main] prints the loading lines
    and the instructions for starting the browser and returns; no
    connection is opened and no command is sent, whatever the peer. *)
Theorem main_stops_after_loading :
  run_result (resolve repo primary_only_fs SCRIPTS scenario_D_peer)
  = Ok [{| snippet_name := "lms-extractor"; snippet_content := "void 0;" |}]
  /\ main repo primary_only_fs SCRIPTS default_arguments scenario_D_peer
     = ([EvPrint "Loading scripts from: repo/lib";
         EvPrint "  Loaded: lms-extractor (7 bytes)";
         EvPrint "  Warning: Script not found: repo/lib/storyline-console-extractor.js";
         EvPrint "  Warning: Script not found: repo/lib/tla-completion-helper.js";
         EvPrint "  Warning: Script not found: repo/lib/unified-qa-extractor.js"]
          ++ instructions default_arguments,
        scenario_D_peer, Ok tt)%list
  /\ sent (run_trace (main repo primary_only_fs SCRIPTS default_arguments
                        scenario_D_peer)) = [].
Proof.
  repeat split; vm_compute; reflexivity.
Qed.

(** ** The shape of an installation session *)

Section InstallerFacts.

Context {W : Type} {WS : WebSocket W}.

Lemma install_loop_trace (snippets : list snippet) :
  forall (i : Z) (w : W),
    loop_trace i snippets
      (is_ok (run_result (install_loop i snippets w)))
      (run_trace (install_loop i snippets w)).
Proof.
  induction snippets as [| s rest IH]; intros i w.
  - constructor.
  - cbn [install_loop]. unfold bind, send, recv, lift, print_value.
    destruct (ws_send (evaluate_command i s) w) as [w1 [[] | e]];
      [| constructor].
    destruct (ws_recv w1) as [w2 [reply | e]]; [| constructor].
    destruct (json_loads reply) as [parsed | e]; [| constructor].
    destruct (reply_value parsed) as [value | e]; [| constructor].
    specialize (IH (i + 1)%Z w2).
    destruct (install_loop (i + 1) rest w2) as [[t w3] r].
    cbn in *. now constructor.
Qed.

Lemma install_body_trace (snippets : list snippet) (w : W) :
  body_trace snippets
    (is_ok (run_result ((send enable_command ;;
                         _ <- recv ;;
                         install_loop 0 snippets) w)))
    (run_trace ((send enable_command ;;
                 _ <- recv ;;
                 install_loop 0 snippets) w)).
Proof.
  unfold bind, send, recv.
  destruct (ws_send enable_command w) as [w1 [[] | e]]; [| constructor].
  destruct (ws_recv w1) as [w2 [reply | e]]; [| constructor].
  pose proof (install_loop_trace snippets 0 w2) as Hloop.
  destruct (install_loop 0 snippets w2) as [[t w3] r].
  cbn in *. now constructor.
Qed.

(** The session: nothing after a failed connection; otherwise the
    guarded block, then the close, whose own failure replaces the
    outcome. *)
Lemma install_via_cdp_run (ws_url : string) (snippets : list snippet) (w : W) :
  install_via_cdp ws_url snippets w
  = match ws_connect ws_url w with
    | (w0, Raise e) => ([EvConnect ws_url], w0, Raise e)
    | (w0, Ok _) =>
        match (send enable_command ;;
               _ <- recv ;;
               install_loop 0 snippets) w0 with
        | (t, w1, r) =>
            match ws_close w1 with
            | (w2, Ok _) => (EvConnect ws_url :: t ++ [EvClose], w2, r)
            | (w2, Raise e) =>
                (EvConnect ws_url :: t ++ [EvClose], w2, Raise e)
            end
        end
    end%list.
Proof.
  unfold install_via_cdp. unfold bind at 1. unfold create_connection.
  destruct (ws_connect ws_url w) as [w0 [[] | e]]; [| reflexivity].
  unfold try_finally, close.
  destruct ((send enable_command ;; _ <- recv ;; install_loop 0 snippets) w0)
    as [[t w1] r].
  destruct (ws_close w1) as [w2 [[] | e]]; reflexivity.
Qed.

End InstallerFacts.

(** ** Facts about loop and block traces *)

Lemma count_app (p : event -> bool) (t1 t2 : trace) :
  count p (t1 ++ t2)%list = count p t1 + count p t2.
Proof. unfold count. now rewrite filter_app, length_app. Qed.

Lemma sent_app (t1 t2 : trace) :
  sent (t1 ++ t2)%list = (sent t1 ++ sent t2)%list.
Proof.
  induction t1 as [| ev t1 IH]; [reflexivity |].
  destruct ev; cbn; now rewrite ?IH.
Qed.

Lemma loop_trace_no_close i snippets completed t :
  loop_trace i snippets completed t -> count is_close t = 0.
Proof. induction 1; cbn in *; auto. Qed.

Lemma body_trace_no_close snippets completed t :
  body_trace snippets completed t -> count is_close t = 0.
Proof.
  destruct 1 as [| | completed t Hloop]; cbn; auto.
  exact (loop_trace_no_close Hloop).
Qed.

Lemma loop_trace_sent i snippets completed t :
  loop_trace i snippets completed t ->
  (exists n, sent t = firstn n (evaluate_commands i snippets))
  /\ (completed = true -> sent t = evaluate_commands i snippets).
Proof.
  induction 1 as [i | i s rest | i s rest | i s rest v completed t Hloop IH].
  - split; [now exists 0 | reflexivity].
  - split; [now exists 1 | discriminate].
  - split; [now exists 1 | discriminate].
  - destruct IH as [[n Hn] Hall]. cbn [sent evaluate_commands]. split.
    + exists (S n). cbn [firstn]. now rewrite Hn.
    + intros Hc. now rewrite (Hall Hc).
Qed.

Lemma body_trace_sent snippets completed t :
  body_trace snippets completed t ->
  (exists n, sent t = firstn n (planned_commands snippets))
  /\ (completed = true -> sent t = planned_commands snippets).
Proof.
  unfold planned_commands.
  destruct 1 as [| | completed t Hloop].
  - split; [now exists 1 | discriminate].
  - split; [now exists 1 | discriminate].
  - destruct (loop_trace_sent Hloop) as [[n Hn] Hall].
    cbn [sent]. split.
    + exists (S n). cbn [firstn]. now rewrite Hn.
    + intros Hc. now rewrite (Hall Hc).
Qed.

(** A loop trace keeps the request/response discipline, and a completed
    one reads as many replies as it sends commands. *)
Lemma loop_trace_lockstep i snippets completed t :
  loop_trace i snippets completed t ->
  lockstep Idle (t ++ [EvClose])%list = true.
Proof.
  induction 1; cbn; auto.
Qed.

Lemma body_trace_lockstep snippets completed t :
  body_trace snippets completed t ->
  lockstep Idle (t ++ [EvClose])%list = true.
Proof.
  destruct 1 as [| | completed t Hloop]; cbn; auto.
  exact (loop_trace_lockstep Hloop).
Qed.

Lemma loop_trace_balanced i snippets t :
  loop_trace i snippets true t -> count is_recv t = count is_send t.
Proof.
  intros Hloop. remember true as completed eqn:Hc.
  induction Hloop; try discriminate; cbn in *; auto.
Qed.

Lemma body_trace_balanced snippets t :
  body_trace snippets true t -> count is_recv t = count is_send t.
Proof.
  intros Hbody. inversion Hbody as [| | completed t' Hloop]; subst.
  pose proof (loop_trace_balanced Hloop) as Hbalanced.
  unfold count in *. cbn. now rewrite Hbalanced.
Qed.

(** ** What the discipline says about two consecutive commands *)

Lemma lockstep_idle_until_send (between after : trace) (m : json) :
  sent between = [] ->
  lockstep Idle (between ++ EvSend m :: after)%list = true ->
  count is_recv between = 0.
Proof.
  induction between as [| ev between IH]; intros Hsent Hlock.
  - reflexivity.
  - destruct ev; cbn in *; try discriminate; auto.
Qed.

Lemma lockstep_awaiting_until_send (between after : trace) (m : json) :
  sent between = [] ->
  lockstep Awaiting (between ++ EvSend m :: after)%list = true ->
  count is_recv between = 1.
Proof.
  induction between as [| ev between IH]; intros Hsent Hlock.
  - discriminate Hlock.
  - destruct ev; cbn in *; try discriminate; auto.
    f_equal. exact (lockstep_idle_until_send _ _ _ Hsent Hlock).
Qed.

Lemma lockstep_after_send (before tail : trace) (m : json) :
  forall ph,
    lockstep ph (before ++ EvSend m :: tail)%list = true ->
    lockstep Awaiting tail = true.
Proof.
  induction before as [| ev before IH]; intros ph Hlock.
  - destruct ph; [exact Hlock | discriminate Hlock].
  - destruct ev, ph; cbn in Hlock; try discriminate; eauto.
Qed.

Lemma lockstep_between_sends (ph : phase) (t before between after : trace)
    (m1 m2 : json) :
  lockstep ph t = true ->
  t = (before ++ EvSend m1 :: between ++ EvSend m2 :: after)%list ->
  sent between = [] ->
  count is_recv between = 1.
Proof.
  intros Hlock -> Hsent.
  apply lockstep_after_send in Hlock.
  exact (lockstep_awaiting_until_send _ _ _ Hsent Hlock).
Qed.

(** ** Sessions *)

Section Sessions.

Context {W : Type} {WS : WebSocket W}.

(** Either the connection fails and nothing else happens, or the trace
    is the guarded block between the connection and one close. *)
Lemma session_shape (ws_url : string) (snippets : list snippet) (w : W) :
  (exists w0 e,
      ws_connect ws_url w = (w0, Raise e)
      /\ install_via_cdp ws_url snippets w = ([EvConnect ws_url], w0, Raise e))
  \/ (exists w0 completed body,
         ws_connect ws_url w = (w0, Ok tt)
         /\ body_trace snippets completed body
         /\ run_trace (install_via_cdp ws_url snippets w)
            = (EvConnect ws_url :: body ++ [EvClose])%list
         /\ (is_ok (run_result (install_via_cdp ws_url snippets w)) = true ->
             completed = true)).
Proof.
  rewrite install_via_cdp_run.
  destruct (ws_connect ws_url w) as [w0 [[] | e]].
  - right.
    pose proof (install_body_trace snippets w0) as Hbody.
    destruct ((send enable_command ;; _ <- recv ;; install_loop 0 snippets) w0)
      as [[t w1] r].
    exists w0, (is_ok r), t. cbn in Hbody.
    destruct (ws_close w1) as [w2 [[] | e]]; cbn; repeat split; auto.
    discriminate.
  - left. exists w0, e. split; reflexivity.
Qed.

End Sessions.

(** ** The channel is closed exactly once *)

(** C4.  When the connection is opened, the trace of the installation is
    the connection, then a block without any close, then one close at the
    very end: the close is made exactly once whether the enable exchange
    and the loop run to their end or any step raises. *)
Theorem channel_closed_exactly_once
    {W : Type} {WS : WebSocket W} (ws_url : string) (snippets : list snippet)
    (w w0 : W) :
  ws_connect ws_url w = (w0, Ok tt) ->
  count is_close (run_trace (install_via_cdp ws_url snippets w)) = 1
  /\ exists body,
       run_trace (install_via_cdp ws_url snippets w)
       = (EvConnect ws_url :: body ++ [EvClose])%list
       /\ count is_close body = 0.
Proof.
  intros Hconnect.
  destruct (session_shape ws_url snippets w)
    as [(w1 & e & Hfail & _) | (w1 & completed & body & _ & Hbody & Htrace & _)].
  - congruence.
  - pose proof (body_trace_no_close Hbody) as Hnone.
    rewrite Htrace. split.
    + change (EvConnect ws_url :: body ++ [EvClose])%list
        with ([EvConnect ws_url] ++ body ++ [EvClose])%list.
      rewrite !count_app, Hnone. reflexivity.
    + now exists body.
Qed.

Lemma channel_closed_exactly_once_witness :
  count is_close
    (run_trace (install_via_cdp "ws://127.0.0.1:9222/devtools/page/1"
                  [snippet_a; snippet_b; snippet_c] scenario_E_peer)) = 1
  /\ reported
       (run_trace (install_via_cdp "ws://127.0.0.1:9222/devtools/page/1"
                     [snippet_a; snippet_b; snippet_c] scenario_E_peer))
     = [JStr "Installed: a"]
  /\ run_result (install_via_cdp "ws://127.0.0.1:9222/devtools/page/1"
                   [snippet_a; snippet_b; snippet_c] scenario_E_peer)
     = Raise (WebSocketException "socket is already closed.").
Proof.
  split.
  - apply (@channel_closed_exactly_once _ scripted
             "ws://127.0.0.1:9222/devtools/page/1"
             [snippet_a; snippet_b; snippet_c] scenario_E_peer
             (tl scenario_E_peer)).
    reflexivity.
  - split; vm_compute; reflexivity.
Defined.

(** ** Identifiers *)

(** The identifier of an evaluation command depends on its index only. *)
Lemma evaluate_command_id (i : Z) (s : snippet) :
  message_id (evaluate_command i s) = Some (i + 10)%Z.
Proof. reflexivity. Qed.

Lemma evaluate_commands_ids (snippets : list snippet) :
  forall (i : Z) (start : nat),
    i = Z.of_nat start ->
    map message_id (evaluate_commands i snippets)
    = map (fun k => Some (10 + Z.of_nat k)%Z) (seq start (List.length snippets)).
Proof.
  induction snippets as [| s rest IH]; intros i start Hi.
  - reflexivity.
  - cbn [evaluate_commands List.length seq map]. f_equal.
    + rewrite evaluate_command_id. f_equal. lia.
    + apply IH. lia.
Qed.

Lemma planned_ids (snippets : list snippet) :
  map message_id (planned_commands snippets)
  = Some 1%Z :: map (fun k => Some (10 + Z.of_nat k)%Z)
                  (seq 0 (List.length snippets)).
Proof.
  unfold planned_commands. cbn [map]. f_equal.
  now apply evaluate_commands_ids.
Qed.

Lemma planned_ids_NoDup (snippets : list snippet) :
  NoDup (map message_id (planned_commands snippets)).
Proof.
  rewrite planned_ids. constructor.
  - intros Hin. apply in_map_iff in Hin as (k & Hk & _).
    assert (Hk' : (10 + Z.of_nat k)%Z = 1%Z) by congruence. lia.
  - apply Finite.Injective_map_NoDup; [| apply seq_NoDup].
    intros a b Hab.
    assert (Hab' : (10 + Z.of_nat a)%Z = (10 + Z.of_nat b)%Z) by congruence.
    lia.
Qed.

Lemma NoDup_firstn {A} (n : nat) (l : list A) : NoDup l -> NoDup (firstn n l).
Proof.
  intros Hl. rewrite <- (firstn_skipn n l) in Hl.
  exact (NoDup_app_remove_r _ _ Hl).
Qed.

(** C5.  The commands a session sends are an initial part of the planned
    ones, and all of them when the installation returns; the planned
    identifiers are 1 for the enable command and 10 + k for the k-th
    evaluation command, whatever the snippets hold; and the identifiers
    sent in a session are pairwise distinct. *)
Theorem identifiers_are_deterministic
    {W : Type} {WS : WebSocket W} (ws_url : string) (snippets : list snippet)
    (w : W) :
  (exists n,
      sent (run_trace (install_via_cdp ws_url snippets w))
      = firstn n (planned_commands snippets))
  /\ (run_result (install_via_cdp ws_url snippets w) = Ok tt ->
      sent (run_trace (install_via_cdp ws_url snippets w))
      = planned_commands snippets)
  /\ map message_id (planned_commands snippets)
     = Some 1%Z :: map (fun k => Some (10 + Z.of_nat k)%Z)
                     (seq 0 (List.length snippets))
  /\ NoDup (map message_id
              (sent (run_trace (install_via_cdp ws_url snippets w)))).
Proof.
  assert (Hprefix :
            (exists n,
                sent (run_trace (install_via_cdp ws_url snippets w))
                = firstn n (planned_commands snippets))
            /\ (run_result (install_via_cdp ws_url snippets w) = Ok tt ->
                sent (run_trace (install_via_cdp ws_url snippets w))
                = planned_commands snippets)).
  { destruct (session_shape ws_url snippets w)
      as [(w0 & e & _ & Hrun)
         | (w0 & completed & body & _ & Hbody & Htrace & Hdone)].
    - rewrite Hrun. split; [now exists 0 | discriminate].
    - destruct (body_trace_sent Hbody) as [[n Hn] Hall].
      assert (Hsent : sent (run_trace (install_via_cdp ws_url snippets w))
                      = sent body).
      { rewrite Htrace. cbn [sent]. rewrite sent_app. cbn. apply app_nil_r. }
      rewrite Hsent. split; [now exists n |].
      intros Hok. apply Hall, Hdone. now rewrite Hok. }
  destruct Hprefix as [[n Hn] Hall].
  repeat split.
  - now exists n.
  - exact Hall.
  - apply planned_ids.
  - rewrite Hn, <- firstn_map. apply NoDup_firstn, planned_ids_NoDup.
Qed.

Lemma identifiers_are_deterministic_witness :
  map message_id
    (sent (run_trace (install_via_cdp "ws://127.0.0.1:9222/devtools/page/1"
                        [snippet_a; snippet_b; snippet_c] scenario_D_peer)))
  = [Some 1%Z; Some 10%Z; Some 11%Z; Some 12%Z].
Proof.
  destruct (@identifiers_are_deterministic _ scripted
              "ws://127.0.0.1:9222/devtools/page/1"
              [snippet_a; snippet_b; snippet_c] scenario_D_peer)
    as (_ & Hall & Hids & _).
  rewrite Hall by (vm_compute; reflexivity).
  exact Hids.
Defined.

(** ** Lock-step use of the channel *)

(** C8.  In every session the sends and receives alternate, starting with
    a send: between two consecutive commands exactly one reply is read (so
    the enable reply is read before the first evaluation command, and each
    evaluation reply before the next evaluation command), and a session
    that returns has read one reply per command. *)
Theorem channel_is_lock_step
    {W : Type} {WS : WebSocket W} (ws_url : string) (snippets : list snippet)
    (w : W) :
  lockstep Idle (run_trace (install_via_cdp ws_url snippets w)) = true
  /\ (forall before between after m1 m2,
         run_trace (install_via_cdp ws_url snippets w)
         = (before ++ EvSend m1 :: between ++ EvSend m2 :: after)%list ->
         sent between = [] ->
         count is_recv between = 1)
  /\ (run_result (install_via_cdp ws_url snippets w) = Ok tt ->
      count is_recv (run_trace (install_via_cdp ws_url snippets w))
      = count is_send (run_trace (install_via_cdp ws_url snippets w))).
Proof.
  assert (Hlock : lockstep Idle (run_trace (install_via_cdp ws_url snippets w))
                  = true).
  { destruct (session_shape ws_url snippets w)
      as [(w0 & e & _ & Hrun)
         | (w0 & completed & body & _ & Hbody & Htrace & _)].
    - now rewrite Hrun.
    - rewrite Htrace. cbn [lockstep]. exact (body_trace_lockstep Hbody). }
  split; [exact Hlock |]. split.
  - intros before between after m1 m2 Htrace Hsent.
    eapply lockstep_between_sends; eassumption.
  - intros Hok.
    destruct (session_shape ws_url snippets w)
      as [(w0 & e & _ & Hrun)
         | (w0 & completed & body & _ & Hbody & Htrace & Hdone)].
    + rewrite Hrun in Hok. discriminate Hok.
    + rewrite Hok in Hdone. rewrite (Hdone eq_refl) in Hbody.
      rewrite Htrace.
      change (EvConnect ws_url :: body ++ [EvClose])%list
        with ([EvConnect ws_url] ++ body ++ [EvClose])%list.
      rewrite !count_app, (body_trace_balanced Hbody). reflexivity.
Qed.

Lemma channel_is_lock_step_witness :
  lockstep Idle
    (run_trace (install_via_cdp "ws://127.0.0.1:9222/devtools/page/1"
                  [snippet_a; snippet_b; snippet_c] scenario_D_peer)) = true
  /\ count is_recv
       (run_trace (install_via_cdp "ws://127.0.0.1:9222/devtools/page/1"
                     [snippet_a; snippet_b; snippet_c] scenario_D_peer)) = 4.
Proof.
  destruct (@channel_is_lock_step _ scripted
              "ws://127.0.0.1:9222/devtools/page/1"
              [snippet_a; snippet_b; snippet_c] scenario_D_peer)
    as (Hlock & _ & Hbalanced).
  split; [exact Hlock |].
  rewrite Hbalanced by (vm_compute; reflexivity).
  vm_compute. reflexivity.
Defined.

(** ** The reported outcome *)

Lemma reply_value_well_shaped (reply : json) :
  well_shaped reply = true ->
  reply_value reply = Ok (reported_outcome reply).
Proof.
  unfold well_shaped, reply_value, reported_outcome, nested_value.
  destruct reply as [| | | | | | items]; try discriminate.
  cbn [is_object andb field py_get].
  destruct (dict_lookup "result" items) as [outer |]; [| reflexivity].
  destruct outer as [| | | | | | inner_items]; try discriminate.
  cbn [is_object andb field py_get].
  destruct (dict_lookup "result" inner_items) as [inner |]; [| reflexivity].
  destruct inner as [| | | | | | value_items]; try discriminate.
  reflexivity.
Qed.






(** * Further properties of the program *)

(** ** [main]: listing, the empty batch, and what it can raise *)

Section MainOutcomes.

Context {W : Type} {WS : WebSocket W}.
Variable script_dir : path.
Variable fs : filesystem.

Lemma list_scripts_run (todo : list descriptor) (w : W) :
  list_scripts todo w = (map listing_line todo, w, Ok tt).
Proof.
  induction todo as [| script rest IH]; [reflexivity |].
  cbn [list_scripts map]. unfold bind. cbn [print]. now rewrite IH.
Qed.

(** The loading loop either returns or raises what one descriptor's read
    raised, and that is never a [FileNotFoundError]. *)
Lemma load_scripts_outcome (flag : bool) (todo : list descriptor) :
  forall (snippets : list snippet) (w : W),
    (exists loaded,
        run_result (load_scripts script_dir fs flag todo snippets w) = Ok loaded)
    \/ (exists script e,
           In script todo
           /\ attempt script_dir fs flag script = Raise e
           /\ is_FileNotFoundError e = false
           /\ run_result (load_scripts script_dir fs flag todo snippets w)
              = Raise e).
Proof.
  induction todo as [| script rest IH]; intros snippets w.
  - left. now exists snippets.
  - cbn [load_scripts]. unfold bind. rewrite load_script_run.
    destruct (attempt script_dir fs flag script) as [content | e] eqn:Hatt.
    + destruct (IH (snippets ++ [{| snippet_name := script_name script;
                                    snippet_content := content |}])%list w)
        as [[loaded Hok] | (d & e & Hin & Hd & He & Hraise)];
        destruct (load_scripts script_dir fs flag rest _ w) as [[t w'] r];
        cbn in *.
      * left. now exists loaded.
      * right. exists d, e. repeat split; auto.
    + destruct (is_FileNotFoundError e) eqn:Hkind.
      * destruct e; try discriminate Hkind.
        destruct (IH snippets w)
          as [[loaded Hok] | (d & e & Hin & Hd & He & Hraise)];
          destruct (load_scripts script_dir fs flag rest snippets w)
            as [[t w'] r];
          cbn in *.
        -- left. now exists loaded.
        -- right. exists d, e. repeat split; auto.
      * right. exists script, e. repeat split; auto.
        -- now left.
        -- destruct e; try discriminate Hkind; reflexivity.
Qed.

Lemma main_list_run (scripts : list descriptor) (args : arguments) (w : W) :
  arg_list args = true ->
  main script_dir fs scripts args w
  = (EvPrint "Available scripts:" :: map listing_line scripts, w,
     Raise (SystemExit 0)).
Proof.
  intros Hlist. unfold main. rewrite Hlist.
  unfold bind. cbn [print]. rewrite list_scripts_run.
  cbn. now rewrite app_nil_r.
Qed.

End MainOutcomes.

(** X1.  With [--list], [main] prints the header and one line per script
    of the table, in table order, and exits with status 0; the file
    system is not looked at. *)
Theorem listing_prints_table_and_exits
    {W : Type} {WS : WebSocket W} (script_dir : path) (fs : filesystem)
    (scripts : list descriptor) (args : arguments) (w : W) :
  arg_list args = true ->
  main script_dir fs scripts args w
  = (EvPrint "Available scripts:" :: map listing_line scripts, w,
     Raise (SystemExit 0)).
Proof.
  apply main_list_run.
Qed.

Lemma listing_prints_table_and_exits_witness :
  main repo empty_fs SCRIPTS
    {| arg_browser := chrome; arg_profile := "Default"; arg_port := 9222;
       arg_list := true |} ([] : list reaction)
  = ([EvPrint "Available scripts:";
      EvPrint "  lms-extractor        - Universal LMS extractor";
      EvPrint "  storyline            - Articulate Storyline extractor";
      EvPrint "  tla-helper           - TLA/xAPI helper";
      EvPrint "  qa-extractor         - Multi-format Q&A extractor"],
     [], Raise (SystemExit 0)).
Proof.
  apply (@listing_prints_table_and_exits _ scripted repo empty_fs SCRIPTS
           {| arg_browser := chrome; arg_profile := "Default";
              arg_port := 9222; arg_list := true |} []).
  reflexivity.
Defined.

(** X2.  When no descriptor of the batch is resolvable, [main] prints one
    warning per descriptor, in order, then ["No scripts to install!"], and
    exits with status 1; the instructions are not printed. *)
Theorem empty_batch_exits_with_1
    {W : Type} {WS : WebSocket W} (script_dir : path) (fs : filesystem)
    (scripts : list descriptor) (args : arguments) (w : W) :
  arg_list args = false ->
  (forall script,
      In script scripts ->
      resolvable script_dir fs (use_dist script_dir fs scripts) script = false) ->
  main script_dir fs scripts args w
  = (loading_header script_dir fs scripts
       :: map (fun script =>
                 EvPrint (warning_line script_dir
                            (use_dist script_dir fs scripts) script))
            scripts
       ++ [EvPrint "No scripts to install!"],
     w, Raise (SystemExit 1))%list.
Proof.
  intros Hlist Hnone.
  assert (Hread : readable script_dir fs (use_dist script_dir fs scripts)
                    scripts).
  { intros script Hin Hres. rewrite (Hnone script Hin) in Hres.
    discriminate Hres. }
  destruct (readable_recoverable Hread) as (Hrec & Hlines & Hsnips).
  assert (Hfilter : filter (resolvable script_dir fs
                              (use_dist script_dir fs scripts)) scripts = []).
  { clear - Hnone. revert Hnone.
    generalize (use_dist script_dir fs scripts) as flag. intros flag Hnone.
    induction scripts as [| d rest IH]; [reflexivity |].
    cbn [filter]. rewrite (Hnone d (or_introl eq_refl)).
    apply IH. intros script Hin. apply Hnone. now right. }
  assert (Hwarn : map (outcome_line script_dir fs
                         (use_dist script_dir fs scripts)) scripts
                  = map (fun script =>
                           EvPrint (warning_line script_dir
                                      (use_dist script_dir fs scripts) script))
                      scripts).
  { apply map_ext_in. intros script Hin. unfold outcome_line.
    now rewrite (Hnone script Hin). }
  rewrite main_run by exact Hlist. unfold resolve.
  rewrite load_scripts_recoverable by exact Hrec.
  rewrite Hlines, Hsnips, Hfilter, Hwarn. reflexivity.
Qed.

Lemma empty_batch_exits_with_1_witness :
  main repo empty_fs SCRIPTS default_arguments ([] : list reaction)
  = ([EvPrint "Loading scripts from: repo/lib";
      EvPrint "  Warning: Script not found: repo/lib/lms-extractor-complete.js";
      EvPrint "  Warning: Script not found: repo/lib/storyline-console-extractor.js";
      EvPrint "  Warning: Script not found: repo/lib/tla-completion-helper.js";
      EvPrint "  Warning: Script not found: repo/lib/unified-qa-extractor.js";
      EvPrint "No scripts to install!"],
     [], Raise (SystemExit 1)).
Proof.
  apply (@empty_batch_exits_with_1 _ scripted repo empty_fs SCRIPTS
           default_arguments []).
  - reflexivity.
  - intros script Hin. cbn in Hin.
    destruct Hin as [<- | [<- | [<- | [<- | []]]]]; reflexivity.
Defined.

(** In this model, where [Path.exists] answers and [print] succeeds,
    [main] returns, or exits with status 0 or 1, or raises what the read
    of one descriptor raised, which is then not a [FileNotFoundError]. *)
Lemma main_result_cases
    {W : Type} {WS : WebSocket W} (script_dir : path) (fs : filesystem)
    (scripts : list descriptor) (args : arguments) (w : W) :
  run_result (main script_dir fs scripts args w) = Ok tt
  \/ run_result (main script_dir fs scripts args w) = Raise (SystemExit 0)
  \/ run_result (main script_dir fs scripts args w) = Raise (SystemExit 1)
  \/ exists script e,
       In script scripts
       /\ attempt script_dir fs (use_dist script_dir fs scripts) script
          = Raise e
       /\ is_FileNotFoundError e = false
       /\ run_result (main script_dir fs scripts args w) = Raise e.
Proof.
  destruct (arg_list args) eqn:Hlist.
  - right. left. now rewrite main_list_run.
  - rewrite main_run by exact Hlist. unfold resolve.
    destruct (load_scripts_outcome script_dir fs
                (use_dist script_dir fs scripts) scripts [] w)
      as [[loaded Hok] | (d & e & Hin & Hd & He & Hraise)];
      destruct (load_scripts script_dir fs _ scripts [] w) as [[t w'] r];
      cbn in *; subst r.
    + destruct loaded as [| s rest]; cbn; auto.
    + right. right. right. exists d, e. repeat split; auto.
Qed.

(** X3.  A [FileNotFoundError] never leaves [main]: whatever the files,
    the table and the arguments, and whichever reads raise it (from
    [read_script] itself or from [read_text]), the outcome of [main] is
    not a [FileNotFoundError]. *)
Theorem missing_file_never_escapes_main
    {W : Type} {WS : WebSocket W} (script_dir : path) (fs : filesystem)
    (scripts : list descriptor) (args : arguments) (w : W) :
  raises_file_not_found (run_result (main script_dir fs scripts args w))
  = false.
Proof.
  destruct (main_result_cases script_dir fs scripts args w)
    as [H | [H | [H | (d & e & _ & _ & He & H)]]];
    rewrite H; try reflexivity.
  exact He.
Qed.

(** A file that vanishes between the check and the read is skipped like a
    missing one. *)
Example vanished_file_is_skipped :
  main repo vanishing_fs SCRIPTS default_arguments ([] : list reaction)
  = ([EvPrint "Loading scripts from: repo/lib";
      EvPrint "  Loaded: lms-extractor (7 bytes)";
      EvPrint "  Warning: Script not found: repo/lib/storyline-console-extractor.js";
      EvPrint "  Warning: [Errno 2] No such file or directory: 'repo/lib/tla-completion-helper.js'";
      EvPrint "  Warning: Script not found: repo/lib/unified-qa-extractor.js"]
       ++ instructions default_arguments,
     [], Ok tt)%list.
Proof. vm_compute. reflexivity. Qed.

(** ** Which files a lookup can reach *)






(** ** Plain names stay plain *)

Lemma replace_scan_no_separator (new : string) :
  has_separator new = false ->
  forall (old s : string) (skip : nat),
    has_separator s = false ->
    has_separator (PyStr.replace_scan old new skip s) = false.
Proof.
  intros Hnew old s.
  assert (Happ : forall a b,
             has_separator a = false -> has_separator b = false ->
             has_separator (a ++ b) = false).
  { induction a as [| c a IH]; intros b Ha Hb; [exact Hb |].
    cbn [append has_separator] in *.
    apply orb_false_iff in Ha as [Hc Ha]. rewrite Hc. now apply IH. }
  induction s as [| c rest IH]; intros skip Hs; [reflexivity |].
  cbn [has_separator] in Hs. apply orb_false_iff in Hs as [Hc Hrest].
  cbn [PyStr.replace_scan]. destruct skip as [| k]; [| now apply IH].
  destruct (PyStr.startswith old (String c rest)).
  - apply Happ; [exact Hnew | now apply IH].
  - cbn [has_separator]. rewrite Hc. now apply IH.
Qed.

Lemma min_name_empty (s : string) : min_name s = "" -> s = "".
Proof.
  unfold min_name, PyStr.replace.
  destruct s as [| c rest]; [reflexivity |].
  cbn [PyStr.replace_scan].
  destruct (PyStr.startswith ".js" (String c rest)); discriminate.
Qed.

Lemma min_name_dot (s : string) : min_name s = "." -> s = ".".
Proof.
  intros Hdot. pose proof Hdot as Hcopy. revert Hcopy.
  unfold min_name, PyStr.replace.
  destruct s as [| c rest]; [discriminate |].
  cbn [PyStr.replace_scan].
  destruct (PyStr.startswith ".js" (String c rest)); [discriminate |].
  intros Hscan. injection Hscan as -> Hrest.
  now rewrite (min_name_empty rest Hrest).
Qed.

Lemma min_name_dotdot (s : string) : min_name s = ".." -> s = "..".
Proof.
  intros Hdots. pose proof Hdots as Hcopy. revert Hcopy.
  unfold min_name, PyStr.replace.
  destruct s as [| c rest]; [discriminate |].
  cbn [PyStr.replace_scan].
  destruct (PyStr.startswith ".js" (String c rest)); [discriminate |].
  intros Hscan. injection Hscan as -> Hrest.
  now rewrite (min_name_dot rest Hrest).
Qed.

(** The packaged name of a plain name is plain. *)
Lemma min_name_plain (s : string) :
  plain_name s = true -> plain_name (min_name s) = true.
Proof.
  unfold plain_name. intros Hplain.
  apply andb_true_iff in Hplain as [Hplain Hsep].
  apply andb_true_iff in Hplain as [Hplain Hdots].
  apply andb_true_iff in Hplain as [Hempty Hdot].
  apply negb_true_iff in Hsep, Hdots, Hempty, Hdot.
  apply String.eqb_neq in Hdots, Hempty, Hdot.
  repeat (apply andb_true_iff; split); apply negb_true_iff.
  - apply String.eqb_neq. intros H. now apply Hempty, min_name_empty.
  - apply String.eqb_neq. intros H. now apply Hdot, min_name_dot.
  - apply String.eqb_neq. intros H. now apply Hdots, min_name_dotdot.
  - unfold min_name, PyStr.replace.
    now apply replace_scan_no_separator.
Qed.

(** X5.  For a descriptor whose file name is plain (one path component),
    every name the lookup appends is plain, and the lookup only reaches
    into the primary and the packaged directory, in a packaged batch only
    into the packaged one: two file systems that agree inside the
    directories reached give the same read. *)
Theorem lookups_stay_in_their_directories
    (script_dir : path) (fs fs' : filesystem) (script : descriptor) :
  plain_name (script_file script) = true ->
  agree_inside (dist_dir script_dir) fs fs' ->
  plain_name (min_name (script_file script)) = true
  /\ plain_name (min_name (min_name (script_file script))) = true
  /\ attempt script_dir fs true script = attempt script_dir fs' true script
  /\ (agree_inside (lib_dir script_dir) fs fs' ->
      attempt script_dir fs false script = attempt script_dir fs' false script).
Proof.
  intros Hplain Hdist.
  split; [now apply min_name_plain |].
  split; [now apply min_name_plain, min_name_plain |].
  split.
  - rewrite !attempt_paths. unfold resolvable, located.
    cbn [candidate_path fallback_path].
    destruct (Hdist (min_name (script_file script))) as [Hfirst Hread1].
    destruct (Hdist (min_name (min_name (script_file script))))
      as [Hsecond Hread2].
    rewrite <- Hfirst, <- Hsecond.
    destruct (fs_exists fs (dist_dir script_dir // min_name (script_file script)));
      destruct (fs_exists fs (dist_dir script_dir
                              // min_name (min_name (script_file script))));
      cbn [orb]; auto.
  - intros Hlib.
    rewrite !attempt_paths. unfold resolvable, located.
    cbn [candidate_path fallback_path].
    destruct (Hlib (script_file script)) as [Hfirst Hread1].
    destruct (Hdist (min_name (script_file script))) as [Hsecond Hread2].
    rewrite <- Hfirst, <- Hsecond.
    destruct (fs_exists fs (lib_dir script_dir // script_file script));
      destruct (fs_exists fs (dist_dir script_dir // min_name (script_file script)));
      cbn [orb]; auto.
Qed.

Lemma lookups_stay_in_their_directories_witness :
  map (attempt repo mixed_fs true) SCRIPTS
  = map (attempt repo mixed_fs_edited true) SCRIPTS.
Proof.
  apply map_ext_in. intros script Hin.
  apply (@lookups_stay_in_their_directories repo mixed_fs mixed_fs_edited script).
  - cbn in Hin. destruct Hin as [<- | [<- | [<- | [<- | []]]]]; reflexivity.
  - intros name. split; reflexivity.
Defined.

(** ** The packaged name of a file *)

Lemma append_empty_r (s : string) : s ++ "" = s.
Proof. induction s as [| c rest IH]; cbn; now rewrite ?IH. Qed.

Lemma replace_scan_unmatched (old new suffix : string) (s : string) :
  unmatched old s suffix = true ->
  PyStr.replace_scan old new 0 (s ++ suffix)
  = s ++ PyStr.replace_scan old new 0 suffix.
Proof.
  induction s as [| c rest IH]; intros Hfree.
  - reflexivity.
  - cbn [unmatched] in Hfree. apply andb_true_iff in Hfree as [Hhere Hrest].
    apply negb_true_iff in Hhere.
    change (String c rest ++ suffix) with (String c (rest ++ suffix)) in *.
    cbn [PyStr.replace_scan]. rewrite Hhere. now rewrite (IH Hrest).
Qed.

Lemma unmatched_longer_suffix (stem : string) :
  unmatched ".js" stem ".js" = true ->
  unmatched ".js" stem ".min.js" = true.
Proof.
  induction stem as [| c rest IH]; intros Hfree; [reflexivity |].
  cbn [unmatched] in *. apply andb_true_iff in Hfree as [Hhere Hrest].
  rewrite (IH Hrest), andb_true_r.
  destruct rest as [| c2 [| c3 rest3]]; cbn in *.
  - now rewrite !andb_false_r.
  - now rewrite !andb_false_r.
  - exact Hhere.
Qed.

(** X6.  For a plain file name [stem.js] whose only [".js"] is the final
    one, the packaged name is [stem.min.js] and substituting once more
    gives [stem.min.min.js]; in a packaged batch the read made for the
    descriptor returns the text of [dist/stem.min.js] when that exists,
    else of [dist/stem.min.min.js] when that exists, and else raises
    [FileNotFoundError] naming [dist/stem.min.js]. *)
Theorem packaged_names_of_js_file
    (stem : string) (script_dir : path) (fs : filesystem)
    (script : descriptor) :
  unmatched ".js" stem ".js" = true ->
  plain_name (stem ++ ".js") = true ->
  script_file script = stem ++ ".js" ->
  min_name (stem ++ ".js") = stem ++ ".min.js"
  /\ min_name (min_name (stem ++ ".js")) = stem ++ ".min.min.js"
  /\ read_script fs (dist_dir script_dir) (min_name (script_file script))
     = attempt script_dir fs true script
  /\ attempt script_dir fs true script
     = if fs_exists fs (dist_dir script_dir // (stem ++ ".min.js"))
       then fs_read_text fs (dist_dir script_dir // (stem ++ ".min.js"))
       else if fs_exists fs (dist_dir script_dir // (stem ++ ".min.min.js"))
            then fs_read_text fs (dist_dir script_dir // (stem ++ ".min.min.js"))
            else Raise (FileNotFoundError
                          ("Script not found: "
                           ++ path_str (dist_dir script_dir
                                        // (stem ++ ".min.js")))).
Proof.
  intros Hfree _ Hfile.
  assert (Honce : min_name (stem ++ ".js") = stem ++ ".min.js").
  { unfold min_name, PyStr.replace.
    now rewrite (replace_scan_unmatched _ _ _ _ Hfree). }
  assert (Htwice : min_name (stem ++ ".min.js") = stem ++ ".min.min.js").
  { unfold min_name, PyStr.replace.
    now rewrite (replace_scan_unmatched _ _ _ _ (unmatched_longer_suffix _ Hfree)). }
  split; [exact Honce |]. split; [now rewrite Honce |].
  split; [reflexivity |].
  rewrite attempt_paths. unfold resolvable, located.
  cbn [candidate_path fallback_path]. rewrite Hfile, Honce, Htwice.
  destruct (fs_exists fs (dist_dir script_dir // (stem ++ ".min.js")));
    [reflexivity |].
  now destruct (fs_exists fs (dist_dir script_dir // (stem ++ ".min.min.js"))).
Qed.

Lemma packaged_names_of_js_file_witness :
  map (attempt repo mixed_fs true) (firstn 1 SCRIPTS)
  = [Raise (FileNotFoundError
              "Script not found: repo/dist/lms-extractor-complete.min.js")].
Proof.
  destruct (@packaged_names_of_js_file "lms-extractor-complete" repo mixed_fs
              {| script_name := "lms-extractor";
                 script_file := "lms-extractor-complete.js";
                 script_description := "Universal LMS extractor" |})
    as (_ & _ & _ & Hattempt); [reflexivity | reflexivity | reflexivity |].
  cbn [firstn SCRIPTS map]. rewrite Hattempt. reflexivity.
Defined.

(** X7.  A plain file name in which [".js"] does not occur is its own
    packaged name: in a packaged batch the read made for such a
    descriptor returns the text of the file of that unchanged name in the
    packaged directory when it exists, and else raises
    [FileNotFoundError] naming it; the fallback adds nothing. *)
Theorem packaged_name_without_js
    (script_dir : path) (fs : filesystem) (script : descriptor) :
  unmatched ".js" (script_file script) "" = true ->
  plain_name (script_file script) = true ->
  min_name (script_file script) = script_file script
  /\ read_script fs (dist_dir script_dir) (min_name (script_file script))
     = attempt script_dir fs true script
  /\ attempt script_dir fs true script
     = if fs_exists fs (dist_dir script_dir // script_file script)
       then fs_read_text fs (dist_dir script_dir // script_file script)
       else Raise (FileNotFoundError
                     ("Script not found: "
                      ++ path_str (dist_dir script_dir // script_file script))).
Proof.
  intros Hfree _.
  assert (Hsame : min_name (script_file script) = script_file script).
  { unfold min_name, PyStr.replace.
    pose proof (replace_scan_unmatched ".js" ".min.js" "" _ Hfree) as Hscan.
    rewrite !append_empty_r in Hscan.
    cbn [PyStr.replace_scan] in Hscan. exact Hscan. }
  split; [exact Hsame |]. split; [reflexivity |].
  rewrite attempt_paths. unfold resolvable, located.
  cbn [candidate_path fallback_path]. rewrite !Hsame.
  now destruct (fs_exists fs (dist_dir script_dir // script_file script)).
Qed.

Lemma packaged_name_without_js_witness :
  attempt repo mixed_fs true
    {| script_name := "notes"; script_file := "notes.txt";
       script_description := "" |}
  = Raise (FileNotFoundError "Script not found: repo/dist/notes.txt").
Proof.
  destruct (@packaged_name_without_js repo mixed_fs
              {| script_name := "notes"; script_file := "notes.txt";
                 script_description := "" |})
    as (_ & _ & Hattempt); [reflexivity | reflexivity |].
  rewrite Hattempt. reflexivity.
Defined.

(** ** When the reply lookup raises *)

(** X8.  The lookup of the reported value raises exactly for the replies
    that are not well shaped (a non-object reply, or a [result] that is
    present at either level without being an object), and then what it
    raises is [AttributeError]. *)
Theorem reply_value_raises_iff (reply : json) :
  (reply_value reply = Raise AttributeError <-> well_shaped reply = false)
  /\ (forall e, reply_value reply = Raise e -> e = AttributeError)
  /\ (well_shaped reply = true -> reply_value reply = Ok (reported_outcome reply)).
Proof.
  assert (Hcases : (well_shaped reply = true
                    /\ reply_value reply = Ok (reported_outcome reply))
                   \/ (well_shaped reply = false
                       /\ reply_value reply = Raise AttributeError)).
  { destruct (well_shaped reply) eqn:Hshape.
    - left. split; [reflexivity | now apply reply_value_well_shaped].
    - right. split; [reflexivity |].
      unfold well_shaped, reply_value in *.
      destruct reply as [| | | | | | items]; try reflexivity.
      cbn [is_object andb field py_get] in *.
      destruct (dict_lookup "result" items) as [outer |]; [| discriminate].
      destruct outer as [| | | | | | inner_items]; try reflexivity.
      cbn [is_object andb field py_get] in *.
      destruct (dict_lookup "result" inner_items) as [inner |];
        [| discriminate].
      destruct inner as [| | | | | | value_items];
        try reflexivity; discriminate. }
  destruct Hcases as [[Hshape Hvalue] | [Hshape Hvalue]];
    rewrite Hshape, Hvalue; repeat split;
    intros; try congruence; try discriminate.
Qed.



(** ** Sessions that fail at their ends *)

(** X10.  When opening the connection raises, the exception leaves
    [install_via_cdp] at once: no command is sent and [close] is not
    called. *)
Theorem failed_connection_does_nothing
    {W : Type} {WS : WebSocket W} (ws_url : string) (snippets : list snippet)
    (w w0 : W) (e : exn) :
  ws_connect ws_url w = (w0, Raise e) ->
  install_via_cdp ws_url snippets w = ([EvConnect ws_url], w0, Raise e).
Proof.
  intros Hconnect. rewrite install_via_cdp_run. now rewrite Hconnect.
Qed.

Lemma failed_connection_does_nothing_witness :
  install_via_cdp "ws://127.0.0.1:9222/devtools/page/1"
    [snippet_a; snippet_b] refusing_peer
  = ([EvConnect "ws://127.0.0.1:9222/devtools/page/1"], [],
     Raise (WebSocketException "Connection refused")).
Proof.
  apply (@failed_connection_does_nothing _ scripted). reflexivity.
Defined.

(** X11.  When the connection was opened and [close] raises, that
    exception is the outcome of [install_via_cdp], whether the guarded
    block had returned or raised something else. *)
Theorem failing_close_decides_outcome
    {W : Type} {WS : WebSocket W} (ws_url : string) (snippets : list snippet)
    (w w0 : W) (e : exn) :
  ws_connect ws_url w = (w0, Ok tt) ->
  snd (ws_close
         (run_world ((send enable_command ;;
                      _ <- recv ;;
                      install_loop 0 snippets) w0)))
  = Raise e ->
  run_result (install_via_cdp ws_url snippets w) = Raise e.
Proof.
  intros Hconnect Hclose. rewrite install_via_cdp_run, Hconnect.
  destruct ((send enable_command ;; _ <- recv ;; install_loop 0 snippets) w0)
    as [[t w1] r].
  cbn [run_world fst snd] in Hclose.
  destruct (ws_close w1) as [w2 [[] | e']]; cbn in *; congruence.
Qed.

Lemma failing_close_decides_outcome_witness :
  run_result (install_via_cdp "ws://127.0.0.1:9222/devtools/page/1"
                [snippet_a] failing_close_peer)
  = Raise (WebSocketException "close failed")
  /\ reported (run_trace (install_via_cdp "ws://127.0.0.1:9222/devtools/page/1"
                            [snippet_a] failing_close_peer))
     = [JStr "Installed: a"].
Proof.
  split.
  - apply (@failing_close_decides_outcome _ scripted
             "ws://127.0.0.1:9222/devtools/page/1" [snippet_a]
             failing_close_peer (tl failing_close_peer)); reflexivity.
  - vm_compute. reflexivity.
Defined.

(** X13.  The reply to the enable command is read and dropped: whatever
    frame arrives (an error reply, or text that is not JSON), the loop
    starts with the first snippet from the world the read left. *)
Theorem enable_reply_is_discarded
    {W : Type} {WS : WebSocket W} (ws_url : string) (snippets : list snippet)
    (w w0 w1 w2 : W) (reply : frame) :
  ws_connect ws_url w = (w0, Ok tt) ->
  ws_send enable_command w0 = (w1, Ok tt) ->
  ws_recv w1 = (w2, Ok reply) ->
  run_trace (install_via_cdp ws_url snippets w)
  = (EvConnect ws_url :: EvSend enable_command :: EvRecv
       :: run_trace (install_loop 0 snippets w2) ++ [EvClose])%list.
Proof.
  intros Hconnect Hsend Hrecv.
  rewrite install_via_cdp_run, Hconnect.
  unfold bind at 1. unfold send at 1. rewrite Hsend.
  unfold bind at 1. unfold recv at 1. rewrite Hrecv.
  destruct (install_loop 0 snippets w2) as [[t w3] r].
  cbn [run_trace fst app].
  destruct (ws_close w3) as [w4 [[] | e]]; reflexivity.
Qed.

Lemma enable_reply_is_discarded_witness :
  run_trace (install_via_cdp "ws://127.0.0.1:9222/devtools/page/1" [snippet_a]
               garbled_enable_peer)
  = [EvConnect "ws://127.0.0.1:9222/devtools/page/1";
     EvSend enable_command; EvRecv;
     EvSend (evaluate_command 0 snippet_a); EvRecv;
     EvPrintValue "  " (JStr "Installed: a");
     EvClose].
Proof.
  rewrite (@enable_reply_is_discarded _ scripted
             "ws://127.0.0.1:9222/devtools/page/1" [snippet_a]
             garbled_enable_peer
             (skipn 1 garbled_enable_peer) (skipn 2 garbled_enable_peer)
             (skipn 3 garbled_enable_peer) NotJson
             eq_refl eq_refl eq_refl).
  vm_compute. reflexivity.
Defined.

(** ** Reports and commands *)

Lemma reported_app (t1 t2 : trace) :
  reported (t1 ++ t2)%list = (reported t1 ++ reported t2)%list.
Proof.
  induction t1 as [| ev t1 IH]; [reflexivity |].
  destruct ev; cbn; now rewrite ?IH.
Qed.

Lemma loop_trace_reports i snippets completed t :
  loop_trace i snippets completed t ->
  List.length (reported t) <= List.length snippets
  /\ List.length (sent t) <= List.length (reported t) + 1
  /\ (completed = true ->
      List.length (reported t) = List.length snippets
      /\ List.length (sent t) = List.length snippets).
Proof.
  induction 1 as [i | i s rest | i s rest | i s rest v completed t Hloop IH];
    cbn [reported sent List.length].
  - split; [lia | split; [lia | intros _; split; reflexivity]].
  - split; [lia | split; [lia | discriminate]].
  - split; [lia | split; [lia | discriminate]].
  - destruct IH as (Hle & Hsent & Hdone).
    split; [lia | split; [lia |]].
    intros Hc. destruct (Hdone Hc). split; lia.
Qed.

(** X12.  In every session at most one outcome is reported per snippet,
    and at most two commands (the enable command and the command in
    flight) are without a reported outcome; a session that returns has
    reported one outcome for every snippet and sent one command more than
    there are snippets. *)
Theorem reports_follow_commands
    {W : Type} {WS : WebSocket W} (ws_url : string) (snippets : list snippet)
    (w : W) :
  List.length (reported (run_trace (install_via_cdp ws_url snippets w)))
  <= List.length snippets
  /\ List.length (sent (run_trace (install_via_cdp ws_url snippets w)))
     <= List.length (reported (run_trace (install_via_cdp ws_url snippets w)))
        + 2
  /\ (run_result (install_via_cdp ws_url snippets w) = Ok tt ->
      List.length (reported (run_trace (install_via_cdp ws_url snippets w)))
      = List.length snippets
      /\ List.length (sent (run_trace (install_via_cdp ws_url snippets w)))
         = S (List.length snippets)).
Proof.
  destruct (session_shape ws_url snippets w)
    as [(w0 & e & _ & Hrun)
       | (w0 & completed & body & _ & Hbody & Htrace & Hdone)].
  - rewrite Hrun. cbn. split; [lia | split; [lia | discriminate]].
  - rewrite Htrace. cbn [reported sent].
    rewrite reported_app, sent_app, !length_app. cbn [reported sent List.length].
    assert (Hok : run_result (install_via_cdp ws_url snippets w) = Ok tt ->
                  completed = true).
    { intros Hr. apply Hdone. now rewrite Hr. }
    destruct Hbody as [| | completed t Hloop];
      cbn [reported sent List.length].
    + split; [lia | split; [lia |]].
      intros Hr. discriminate (Hok Hr).
    + split; [lia | split; [lia |]].
      intros Hr. discriminate (Hok Hr).
    + destruct (loop_trace_reports Hloop) as (Hle & Hsent & Hall).
      split; [lia | split; [lia |]].
      intros Hr. destruct (Hall (Hok Hr)). split; lia.
Qed.

Lemma reports_follow_commands_witness :
  List.length
    (reported (run_trace (install_via_cdp "ws://127.0.0.1:9222/devtools/page/1"
                            [snippet_a; snippet_b; snippet_c] scenario_D_peer)))
  = 3.
Proof.
  destruct (@reports_follow_commands _ scripted
              "ws://127.0.0.1:9222/devtools/page/1"
              [snippet_a; snippet_b; snippet_c] scenario_D_peer)
    as (_ & _ & Hdone).
  destruct Hdone as [Hreports _]; [vm_compute; reflexivity |].
  exact Hreports.
Defined.

(** ** The literals embedded in the expression *)

Lemma append_associative (a b c : string) : (a ++ b) ++ c = a ++ (b ++ c).
Proof. induction a as [| x a IH]; cbn; now rewrite ?IH. Qed.

Lemma escape_stays_in_literal (c : ascii) (rest : string) :
  literal_body false (Json.escape c ++ rest) = literal_body false rest.
Proof.
  destruct c as [[] [] [] [] [] [] [] []]; reflexivity.
Qed.

Lemma escape_printable (c : ascii) : printable (Json.escape c) = true.
Proof.
  destruct c as [[] [] [] [] [] [] [] []]; reflexivity.
Qed.

Lemma printable_app (s1 s2 : string) :
  printable (s1 ++ s2) = printable s1 && printable s2.
Proof.
  induction s1 as [| c rest IH]; [reflexivity |].
  cbn [append printable]. rewrite IH. now rewrite andb_assoc.
Qed.

(** X14.  Whatever a snippet's name or content holds (quotes,
    backslashes, line breaks, control or non-ASCII characters), the text
    [json.dumps] embeds for it in the expression is one closed
    double-quoted literal made of printable ASCII only: no character of
    the snippet ends the literal early. *)
Theorem embedded_literal_is_closed (s : string) :
  is_literal (Json.dumps_str s) = true
  /\ printable (Json.dumps_str s) = true.
Proof.
  unfold Json.dumps_str. split.
  - cbn [is_literal PyStr.dquote append]. rewrite Ascii.eqb_refl. cbn [andb].
    induction s as [| c rest IH]; [reflexivity |].
    cbn [Json.escape_all].
    now rewrite append_associative, escape_stays_in_literal.
  - rewrite !printable_app.
    assert (Hbody : printable (Json.escape_all s) = true).
    { induction s as [| c rest IH]; [reflexivity |].
      cbn [Json.escape_all]. now rewrite printable_app, escape_printable, IH. }
    now rewrite Hbody.
Qed.

(** ** Finding the browser *)

Section BrowserSearch.

Variable h : host.

Lemma search_browser_found (system browser : string)
    (candidates : list string) (found : string) :
  search_browser h system browser candidates = Ok found
  <-> exists before candidate after,
        candidates = (before ++ candidate :: after)%list
        /\ Forall (fun c => probe h system c = Ok None) before
        /\ probe h system candidate = Ok (Some found).
Proof.
  induction candidates as [| c rest IH]; cbn [search_browser].
  - split; [discriminate |].
    intros (before & candidate & after & Hshape & _). now destruct before.
  - destruct (probe h system c) as [[p |] | e] eqn:Hprobe.
    + split.
      * intros Hfound. exists [], c, rest. repeat split; [constructor |].
        congruence.
      * intros (before & candidate & after & Hshape & Hbefore & Hcandidate).
        destruct before as [| b before]; cbn [app] in Hshape;
          injection Hshape as <- _.
        -- congruence.
        -- inversion Hbefore; congruence.
    + rewrite IH. split.
      * intros (before & candidate & after & -> & Hbefore & Hcandidate).
        exists (c :: before), candidate, after.
        repeat split; [now constructor | exact Hcandidate].
      * intros (before & candidate & after & Hshape & Hbefore & Hcandidate).
        destruct before as [| b before]; cbn [app] in Hshape;
          injection Hshape as <- Hrest.
        -- congruence.
        -- exists before, candidate, after. inversion Hbefore. now repeat split.
    + split; [discriminate |].
      intros (before & candidate & after & Hshape & Hbefore & Hcandidate).
      destruct before as [| b before]; cbn [app] in Hshape;
        injection Hshape as <- _.
      * congruence.
      * inversion Hbefore; congruence.
Qed.

Lemma search_browser_none (system browser : string) (candidates : list string) :
  Forall (fun c => probe h system c = Ok None) candidates ->
  search_browser h system browser candidates = Raise (browser_not_found browser).
Proof.
  induction 1 as [| c rest Hc Hrest IH]; [reflexivity |].
  cbn [search_browser]. now rewrite Hc.
Qed.

End BrowserSearch.

(** X15.  [get_browser_path] returns the answer of the first candidate,
    in the order of the table for the platform and the browser, whose
    probe succeeds: every candidate before it was probed and rejected,
    and no candidate after it decides anything. *)
Theorem browser_path_is_first_match (h : host) (browser found : string) :
  get_browser_path h browser = Ok found
  <-> exists before candidate after,
        browser_candidates h browser = (before ++ candidate :: after)%list
        /\ Forall (fun c => probe h (platform_system h) c = Ok None) before
        /\ probe h (platform_system h) candidate = Ok (Some found).
Proof.
  unfold get_browser_path. cbv zeta. apply search_browser_found.
Qed.

Lemma browser_path_is_first_match_witness :
  get_browser_path chromium_host "chrome" = Ok "/usr/bin/chromium".
Proof.
  apply (proj2 (browser_path_is_first_match chromium_host "chrome"
                  "/usr/bin/chromium")).
  exists ["google-chrome"; "google-chrome-stable"], "chromium",
    ["chromium-browser"].
  repeat split.
  repeat constructor.
Defined.

(** X16.  When every candidate is rejected, and so whenever the platform
    is none of Windows, Darwin and Linux or the browser is none of chrome,
    edge and brave, [get_browser_path] raises [FileNotFoundError] with
    the message naming the browser. *)
Theorem browser_not_found_when_all_rejected (h : host) (browser : string) :
  (Forall (fun c => probe h (platform_system h) c = Ok None)
     (browser_candidates h browser) ->
   get_browser_path h browser = Raise (browser_not_found browser))
  /\ (platform_system h <> "Windows" ->
      platform_system h <> "Darwin" ->
      platform_system h <> "Linux" ->
      get_browser_path h browser = Raise (browser_not_found browser))
  /\ (browser <> "chrome" -> browser <> "edge" -> browser <> "brave" ->
      get_browser_path h browser = Raise (browser_not_found browser)).
Proof.
  split; [| split].
  - intros Hall. unfold get_browser_path. cbv zeta.
    now apply search_browser_none.
  - intros Hw Hd Hl. unfold get_browser_path, browser_paths. cbv zeta.
    cbn [table_get].
    apply String.eqb_neq in Hw, Hd, Hl.
    rewrite String.eqb_sym in Hw. rewrite String.eqb_sym in Hd.
    rewrite String.eqb_sym in Hl.
    now rewrite Hw, Hd, Hl.
  - intros Hc He Hb. unfold get_browser_path, browser_paths. cbv zeta.
    apply String.eqb_neq in Hc, He, Hb.
    rewrite String.eqb_sym in Hc. rewrite String.eqb_sym in He.
    rewrite String.eqb_sym in Hb.
    cbn [table_get].
    destruct (String.eqb "Windows" (platform_system h));
      [cbn [table_get]; now rewrite Hc, He, Hb |].
    destruct (String.eqb "Darwin" (platform_system h));
      [cbn [table_get]; now rewrite Hc, He, Hb |].
    destruct (String.eqb "Linux" (platform_system h));
      [cbn [table_get]; now rewrite Hc, He, Hb | reflexivity].
Qed.

Lemma browser_not_found_when_all_rejected_witness :
  get_browser_path chromium_host "edge"
  = Raise (FileNotFoundError
             "Could not find edge browser. Please specify path manually.")
  /\ get_browser_path chromium_host "firefox"
     = Raise (FileNotFoundError
                "Could not find firefox browser. Please specify path manually.").
Proof.
  destruct (browser_not_found_when_all_rejected chromium_host "edge")
    as (Hrejected & _ & _).
  destruct (browser_not_found_when_all_rejected chromium_host "firefox")
    as (_ & _ & Hunknown).
  split.
  - apply Hrejected. repeat constructor.
  - apply Hunknown; discriminate.
Defined.

(** X17.  On Linux only [which] is consulted, elsewhere only
    [os.path.exists]: two hosts with the same platform and environment
    that agree on the one their platform uses give the same answer,
    whatever the other one says. *)
Theorem browser_probe_depends_on_platform (h h' : host) (browser : string) :
  platform_system h = platform_system h' ->
  (forall s, os_path_expandvars h s = os_path_expandvars h' s) ->
  (platform_system h = "Linux" -> forall p, run_which h p = run_which h' p) ->
  (platform_system h <> "Linux" ->
   forall p, os_path_exists h p = os_path_exists h' p) ->
  get_browser_path h browser = get_browser_path h' browser.
Proof.
  intros Hsystem Hexpand Hwhich Hexists.
  assert (Hpaths : browser_paths h = browser_paths h').
  { unfold browser_paths. now rewrite !Hexpand. }
  assert (Hprobe : forall c,
             probe h (platform_system h) c = probe h' (platform_system h) c).
  { intros c. unfold probe.
    destruct (String.eqb (platform_system h) "Linux") eqn:Hlinux.
    - apply String.eqb_eq in Hlinux. now rewrite (Hwhich Hlinux c).
    - apply String.eqb_neq in Hlinux. now rewrite (Hexists Hlinux c). }
  unfold get_browser_path. cbv zeta. rewrite <- Hsystem, <- Hpaths.
  induction (table_get browser
               (table_get (platform_system h) (browser_paths h) []) [])
    as [| c rest IH]; [reflexivity |].
  cbn [search_browser]. now rewrite Hprobe, IH.
Qed.

Lemma browser_probe_depends_on_platform_witness :
  get_browser_path chromium_host_all_exist "edge"
  = Raise (FileNotFoundError
             "Could not find edge browser. Please specify path manually.").
Proof.
  rewrite <- (@browser_probe_depends_on_platform chromium_host
                chromium_host_all_exist "edge").
  - reflexivity.
  - reflexivity.
  - reflexivity.
  - reflexivity.
  - intros Hnot. exfalso. apply Hnot. reflexivity.
Defined.

(** ** Stripped output *)

Lemma lstrip_starts_clean (s : string) : starts_with_space (lstrip s) = false.
Proof.
  induction s as [| c rest IH]; [reflexivity |].
  cbn [lstrip]. destruct (is_space c) eqn:Hc; [exact IH |].
  cbn [starts_with_space]. exact Hc.
Qed.

Lemma rstrip_ends_clean (s : string) : ends_with_space (rstrip s) = false.
Proof.
  induction s as [| c rest IH]; [reflexivity |].
  cbn [rstrip]. destruct (rstrip rest) as [| k kept].
  - destruct (is_space c) eqn:Hc; [reflexivity |].
    cbn [ends_with_space]. exact Hc.
  - exact IH.
Qed.

Lemma rstrip_keeps_start (s : string) :
  starts_with_space s = false -> starts_with_space (rstrip s) = false.
Proof.
  destruct s as [| c rest]; [reflexivity |].
  cbn [starts_with_space rstrip]. intros Hc.
  destruct (rstrip rest) as [| k kept].
  - now rewrite Hc.
  - exact Hc.
Qed.

Lemma strip_is_clean (s : string) :
  starts_with_space (strip s) = false /\ ends_with_space (strip s) = false.
Proof.
  unfold strip. split.
  - apply rstrip_keeps_start, lstrip_starts_clean.
  - apply rstrip_ends_clean.
Qed.

(** X18.  On Linux the path returned is the output of [which] with the
    surrounding white space removed: it neither starts nor ends with a
    white-space character (in particular not with the line break [which]
    prints). *)
Theorem linux_browser_path_is_stripped (h : host) (browser found : string) :
  platform_system h = "Linux" ->
  get_browser_path h browser = Ok found ->
  starts_with_space found = false /\ ends_with_space found = false.
Proof.
  intros Hlinux Hfound.
  unfold get_browser_path in Hfound. cbv zeta in Hfound.
  apply search_browser_found in Hfound
    as (before & candidate & after & _ & _ & Hprobe).
  unfold probe in Hprobe. rewrite Hlinux in Hprobe.
  cbn [String.eqb] in Hprobe.
  replace (String.eqb "Linux" "Linux") with true in Hprobe by reflexivity.
  destruct (run_which h candidate) as [completed | e]; [| discriminate].
  destruct (Z.eqb (returncode completed) 0); [| discriminate].
  destruct (stdout completed) as [text | e]; [| discriminate].
  injection Hprobe as <-. apply strip_is_clean.
Qed.

Lemma linux_browser_path_is_stripped_witness :
  ends_with_space "/usr/bin/chromium" = false.
Proof.
  apply (@linux_browser_path_is_stripped chromium_host "chrome"
           "/usr/bin/chromium"); reflexivity.
Defined.

(** ** The user data directory *)

(** In this model, where the home directory is known and [exists]
    answers, the two outcomes of [get_user_data_dir]. *)
Lemma user_data_dir_cases
    (h : host) (fs : filesystem) (browser profile : string) :
  (exists below,
      below <> []
      /\ fs_exists fs (path_home h ++ below)%list = true
      /\ get_user_data_dir h fs browser profile
         = Ok (path_render h (path_home h ++ below)%list))
  \/ get_user_data_dir h fs browser profile
     = Raise (user_data_not_found browser).
Proof.
  unfold get_user_data_dir, user_data_dirs. cbv zeta.
  cbn [table_get].
  repeat match goal with
         | |- context [String.eqb ?a (platform_system h)] =>
             destruct (String.eqb a (platform_system h));
             cbn [table_get table_find]
         | |- context [String.eqb ?a browser] =>
             destruct (String.eqb a browser); cbn [table_get table_find]
         end;
    try (right; reflexivity);
    match goal with
    | |- context [fs_exists fs ?dir] =>
        destruct (fs_exists fs dir) eqn:Hdir; [left | right; reflexivity]
    end;
    unfold joinpaths in *;
    eexists; (split; [| split; [exact Hdir | reflexivity]]);
    vm_compute; discriminate.
Qed.

(** X19.  What [get_user_data_dir] returns is the rendering of a
    directory that lies below the home directory and was found to exist,
    and the profile argument has no effect on the outcome. *)
Theorem user_data_dir_is_below_home
    (h : host) (fs : filesystem) (browser profile found : string) :
  get_user_data_dir h fs browser profile = Ok found ->
  (exists below,
      below <> []
      /\ fs_exists fs (path_home h ++ below)%list = true
      /\ found = path_render h (path_home h ++ below)%list)
  /\ forall profile', get_user_data_dir h fs browser profile' = Ok found.
Proof.
  intros Hfound. split; [| intros profile'; exact Hfound].
  destruct (user_data_dir_cases h fs browser profile)
    as [(below & Hbelow & Hexists & Hrun) | Hraise].
  - exists below. repeat split; try assumption. congruence.
  - congruence.
Qed.

Lemma user_data_dir_is_below_home_witness :
  get_user_data_dir chromium_host home_fs "chrome" "Profile 7"
  = Ok "/home/user/.config/google-chrome".
Proof.
  apply (@user_data_dir_is_below_home chromium_host home_fs "chrome" "Default"
           "/home/user/.config/google-chrome").
  reflexivity.
Defined.

(** ** The first command *)

(** X20.  Once the connection is open, the enable command is sent, first,
    whatever the snippet list; with an empty list it is the only command
    of the session and nothing is reported. *)
Theorem enable_command_comes_first
    {W : Type} {WS : WebSocket W} (ws_url : string) (snippets : list snippet)
    (w w0 : W) :
  ws_connect ws_url w = (w0, Ok tt) ->
  (exists later,
      sent (run_trace (install_via_cdp ws_url snippets w))
      = enable_command :: later)
  /\ (snippets = [] ->
      sent (run_trace (install_via_cdp ws_url snippets w)) = [enable_command]
      /\ reported (run_trace (install_via_cdp ws_url snippets w)) = []).
Proof.
  intros Hconnect.
  destruct (session_shape ws_url snippets w)
    as [(w1 & e & Hfail & _)
       | (w1 & completed & body & _ & Hbody & Htrace & _)];
    [congruence |].
  rewrite Htrace. cbn [sent reported].
  rewrite sent_app, reported_app. cbn [sent reported]. rewrite !app_nil_r.
  destruct Hbody as [| | completed t Hloop]; cbn [sent reported].
  - split; [now exists [] |]. intros _. split; reflexivity.
  - split; [now exists [] |]. intros _. split; reflexivity.
  - split; [now exists (sent t) |].
    intros ->. inversion Hloop; subst. split; reflexivity.
Qed.

Lemma enable_command_comes_first_witness :
  sent (run_trace (install_via_cdp "ws://127.0.0.1:9222/devtools/page/1" []
                     scenario_D_peer))
  = [enable_command].
Proof.
  destruct (@enable_command_comes_first _ scripted
              "ws://127.0.0.1:9222/devtools/page/1" [] scenario_D_peer
              (tl scenario_D_peer) eq_refl)
    as [_ Hempty].
  exact (proj1 (Hempty eq_refl)).
Defined.
